(** * VIPReportGenerator: scan-data reader, format renderers, orchestrator

    A shallow embedding of [report_generator.py].  The Python methods of
    [VIPReportGenerator] become functions in a state-and-exception monad
    over a [World] that holds the capability flags, the scan store, the
    output files, the clock and a chronological trace of events (store
    connections and queries, printed lines, entries into the renderers).

    Conventions of the embedding:
    - a Python [str] is a [string] of bytes (UTF-8); [lower] and [title]
      are modelled on ASCII letters;
    - a column value read through [sqlite3] is [VNone], [VInt] or [VStr]
      (REAL and BLOB columns are outside the model); a string method called
      on a value that is not text raises [AttributeError];
    - rows of the two tables are records with the columns of the external
      schema, and queries on that schema do not raise;
    - the third-party encoders (json, csv, reportlab, python-docx,
      openpyxl) are not re-implemented: a written file holds the document
      that the renderer hands to the encoder, and an encoder accepts every
      document; writing fails, with [OSError], only when the output path
      cannot be opened;
    - [datetime.now()] reads the next value of a clock given with the
      world. *)

From Stdlib Require Import ZArith String Ascii List Bool Lia.
From stdpp Require Import gmap strings list pretty.

Set Warnings "-register-all".

Open Scope Z_scope.
Open Scope string_scope.
Open Scope list_scope.

(** ** Python values and strings *)

Inductive value : Type :=
| VNone
| VInt (n : Z)
| VStr (s : string).

#[global] Instance value_eq_dec : EqDecision value.
Proof. solve_decision. Defined.

(** [bool(v)]: [None], [0] and the empty string are falsy. *)
Definition truthy (v : value) : bool :=
  match v with
  | VNone => false
  | VInt n => negb (n =? 0)%Z
  | VStr s => negb (String.eqb s EmptyString)
  end.

(** [str(v)], also what an f-string substitution [{v}] produces. *)
Definition py_str (v : value) : string :=
  match v with
  | VNone => "None"
  | VInt n => pretty n
  | VStr s => s
  end.

(** The double-quote character. *)
Definition dq : string := String (ascii_of_nat 34) EmptyString.

Definition is_upper (c : ascii) : bool :=
  ((65 <=? nat_of_ascii c) && (nat_of_ascii c <=? 90))%nat.

Definition is_lower (c : ascii) : bool :=
  ((97 <=? nat_of_ascii c) && (nat_of_ascii c <=? 122))%nat.

Definition to_lower (c : ascii) : ascii :=
  if is_upper c then ascii_of_nat (nat_of_ascii c + 32) else c.

Definition to_upper (c : ascii) : ascii :=
  if is_lower c then ascii_of_nat (nat_of_ascii c - 32) else c.

(** [s.lower()] on ASCII text; bytes outside A-Z are kept. *)
Fixpoint str_lower (s : string) : string :=
  match s with
  | EmptyString => EmptyString
  | String c s' => String (to_lower c) (str_lower s')
  end.

(** [s.title()] on ASCII text: a letter that follows a letter is lowered,
    any other letter is raised. *)
Fixpoint title_from (previous_is_cased : bool) (s : string) : string :=
  match s with
  | EmptyString => EmptyString
  | String c s' =>
      let cased := is_upper c || is_lower c in
      String (if previous_is_cased then to_lower c else to_upper c)
             (title_from cased s')
  end.

Definition str_title (s : string) : string := title_from false s.

(** [f"{s:12s}"]: left-justify in a field of [n] characters. *)
Definition ljust (n : nat) (s : string) : string :=
  s +:+ String.concat EmptyString (repeat " " (n - String.length s)).

(** ["=" * n]. *)
Definition str_repeat (s : string) (n : nat) : string :=
  String.concat EmptyString (repeat s n).

Definition newline : string := String (ascii_of_nat 10) EmptyString.

(** ** The clock *)

Record datetime : Type := mk_datetime {
  year : Z; month : Z; day : Z; hour : Z; minute : Z; second : Z
}.

Definition pad2 (n : Z) : string :=
  if (n <? 10)%Z then "0" +:+ pretty n else pretty n.

(** [t.strftime("%Y-%m-%d %H:%M:%S")]. *)
Definition strftime (t : datetime) : string :=
  pretty (year t) +:+ "-" +:+ pad2 (month t) +:+ "-" +:+ pad2 (day t) +:+ " "
  +:+ pad2 (hour t) +:+ ":" +:+ pad2 (minute t) +:+ ":" +:+ pad2 (second t).

(** ** The scan store *)

(** A row of table [scans], columns 0 to 9. *)
Record ScanRow : Type := mk_scan_row {
  scans_id : Z;
  scans_target_url : value;
  scans_scan_type : value;
  scans_start_time : value;
  scans_end_time : value;
  scans_total_alerts : value;
  scans_high_risk : value;
  scans_medium_risk : value;
  scans_low_risk : value;
  scans_status : value
}.

(** A row of table [vulnerabilities], columns 0 to 8. *)
Record VulnRow : Type := mk_vuln_row {
  vulns_id : Z;
  vulns_scan_id : Z;
  vulns_name : value;
  vulns_severity : value;
  vulns_confidence : value;
  vulns_url : value;
  vulns_description : value;
  vulns_solution : value;
  vulns_reference : value
}.

Record Store : Type := mk_store {
  scans_table : list ScanRow;
  vulnerabilities_table : list VulnRow
}.

(** [SELECT * FROM scans WHERE id = ?] followed by [fetchone()]. *)
Definition select_scan (db : Store) (scan_id : Z) : option ScanRow :=
  List.find (fun r => (scans_id r =? scan_id)%Z) (scans_table db).

(** [SELECT * FROM vulnerabilities WHERE scan_id = ?] followed by
    [fetchall()]: the matching rows in table order. *)
Definition select_vulns (db : Store) (scan_id : Z) : list VulnRow :=
  List.filter (fun r => (vulns_scan_id r =? scan_id)%Z) (vulnerabilities_table db).

(** ** The aggregate built by the reader *)

(** An element of [data['vulnerabilities']]. *)
Record Vuln : Type := mk_vuln {
  vuln_id : Z;
  name : value;
  severity : value;
  confidence : value;
  url : value;
  description : value;
  solution : value;
  reference : value
}.

(** The dictionary [data]. *)
Record ScanData : Type := mk_scan_data {
  scan_id : Z;
  target_url : value;
  scan_type : value;
  start_time : value;
  end_time : value;
  total_alerts : value;
  high_risk : value;
  medium_risk : value;
  low_risk : value;
  status : value;
  vulnerabilities : list Vuln
}.

(** [len(data)]: the dictionary always has its eleven keys. *)
Definition data_len (d : ScanData) : nat := 11.

(** [data['vulnerabilities'].append(x)]. *)
Definition append_vuln (d : ScanData) (x : Vuln) : ScanData :=
  {| scan_id := scan_id d; target_url := target_url d; scan_type := scan_type d;
     start_time := start_time d; end_time := end_time d;
     total_alerts := total_alerts d; high_risk := high_risk d;
     medium_risk := medium_risk d; low_risk := low_risk d; status := status d;
     vulnerabilities := vulnerabilities d ++ [x] |}.

(** The dictionary built from row [v] in the loop of [get_scan_data]. *)
Definition vuln_of_row (v : VulnRow) : Vuln :=
  {| vuln_id := vulns_id v; name := vulns_name v; severity := vulns_severity v;
     confidence := vulns_confidence v; url := vulns_url v;
     description := vulns_description v; solution := vulns_solution v;
     reference := vulns_reference v |}.

(** ** Documents handed to the encoders *)

Inductive json : Type :=
| JNull
| JInt (n : Z)
| JStr (s : string)
| JList (items : list json)
| JObj (members : list (string * json)).

Definition json_of_value (v : value) : json :=
  match v with
  | VNone => JNull
  | VInt n => JInt n
  | VStr s => JStr s
  end.

(** Paragraph styles used by the PDF renderer. *)
Inductive pdf_style : Type :=
| CustomTitle | CustomHeading | Heading3 | Normal.

Inductive table_style : Type :=
| SummaryTableStyle | InfoTableStyle.

(** reportlab flowables; column widths are in inches. *)
Inductive flowable : Type :=
| Paragraph (text : string) (style : pdf_style)
| Spacer (width height : Z)
| Table (cells : list (list value)) (colWidths : list Z) (style : table_style)
| PageBreak.

(** Blocks of a python-docx document, in the order they are added. *)
Inductive docx_block : Type :=
| DocxHeading (text : string) (level : Z) (centered : bool)
| DocxTable (style : string) (cells : list (list value))
| DocxPageBreak
| DocxParagraph (text : string).

(** An openpyxl workbook: the cells assigned on sheet [Summary] and the
    rows appended to sheet [Vulnerabilities]. *)
Record workbook : Type := mk_workbook {
  summary_cells : list (string * value);
  vulnerability_rows : list (list value)
}.

Inductive file_content : Type :=
| HtmlFile (text : string)
| JsonFile (doc : json)
| CsvFile (rows : list (list string))
| PdfFile (story : list flowable)
| DocxFile (blocks : list docx_block)
| XlsxFile (wb : workbook).

(** ** The world and the monad *)

Inductive exn : Type :=
| AttributeError
| OSError.

(** What the trace records: [sqlite3.connect] returning connection [conn],
    a query executed on a connection, [conn.close()], a line printed, and
    the entry into a renderer with its arguments. *)
Inductive event : Type :=
| EvConnect (conn : nat) (path : string)
| EvExecute (conn : nat) (sql : string) (param : Z)
| EvClose (conn : nat)
| EvPrint (line : string)
| EvCall (method : string) (scan : Z) (output_file : string).

(** Module-level capability flags, set when the module is loaded. *)
Record Caps : Type := mk_caps {
  PDF_AVAILABLE : bool;
  DOCX_AVAILABLE : bool;
  EXCEL_AVAILABLE : bool
}.

Record World : Type := mk_world {
  caps : Caps;
  db : Store;
  files : gmap string file_content;
  (** paths at which opening a file for writing raises [OSError] *)
  unwritable : gset string;
  (** successive readings of [datetime.now()] *)
  clock : nat -> datetime;
  ticks : nat;
  next_conn : nat;
  trace : list event
}.

Inductive outcome (A : Type) : Type :=
| Ret (a : A)
| Raise (e : exn).
Arguments Ret {A} a.
Arguments Raise {A} e.

Definition M (A : Type) : Type := World -> outcome A * World.

Definition ret {A} (a : A) : M A := fun w => (Ret a, w).

Definition raise {A} (e : exn) : M A := fun w => (Raise e, w).

Definition bind {A B} (c : M A) (k : A -> M B) : M B :=
  fun w =>
    match c w with
    | (Ret a, w') => k a w'
    | (Raise e, w') => (Raise e, w')
    end.

Notation "'let*' x := c 'in' k" := (bind c (fun x => k))
  (at level 10, x name, c at level 100, k at level 200).

(** The world after a step: the capability flags, the store, the set of
    unwritable paths and the clock are never changed by the generator. *)
Definition upd (w : World) (fs : gmap string file_content) (tk nc : nat)
    (tr : list event) : World :=
  {| caps := caps w; db := db w; files := fs; unwritable := unwritable w;
     clock := clock w; ticks := tk; next_conn := nc; trace := tr |}.

Definition log (e : event) : M unit :=
  fun w => (Ret tt, upd w (files w) (ticks w) (next_conn w) (trace w ++ [e])).

Definition print (line : string) : M unit := log (EvPrint line).

Definition get_world : M World := fun w => (Ret w, w).

(** [sqlite3.connect(path)]: a fresh connection handle. *)
Definition connect (path : string) : M nat :=
  fun w => (Ret (next_conn w),
            upd w (files w) (ticks w) (S (next_conn w))
                (trace w ++ [EvConnect (next_conn w) path])).

Definition close (conn : nat) : M unit := log (EvClose conn).

(** [datetime.now()]. *)
Definition now : M datetime :=
  fun w => (Ret (clock w (ticks w)),
            upd w (files w) (S (ticks w)) (next_conn w) (trace w)).

(** Creating (or replacing) the file at [path] with [content]; raises
    [OSError] when the path cannot be opened for writing. *)
Definition write_file (path : string) (content : file_content) : M unit :=
  fun w =>
    if decide (path ∈ unwritable w) then (Raise OSError, w)
    else (Ret tt,
          upd w (<[path := content]> (files w)) (ticks w) (next_conn w) (trace w)).

(** A method call [v.title()] or [v.lower()] on a column value: only a
    [str] has the method. *)
Definition call_str_method (f : string -> string) (v : value) : M string :=
  match v with
  | VStr s => ret (f s)
  | _ => raise AttributeError
  end.

(** ** VIPReportGenerator *)

Record VIPReportGenerator : Type := mk_generator { db_path : string }.

Definition sql_scan : string := "SELECT * FROM scans WHERE id = ?".
Definition sql_vulns : string := "SELECT * FROM vulnerabilities WHERE scan_id = ?".

(** [cursor.execute(sql_scan, (scan_id,)); cursor.fetchone()]. *)
Definition fetchone_scan (conn : nat) (id : Z) : M (option ScanRow) :=
  let* _ := log (EvExecute conn sql_scan id) in
  let* w := get_world in
  ret (select_scan (db w) id).

(** [cursor.execute(sql_vulns, (scan_id,)); cursor.fetchall()]. *)
Definition fetchall_vulns (conn : nat) (id : Z) : M (list VulnRow) :=
  let* _ := log (EvExecute conn sql_vulns id) in
  let* w := get_world in
  ret (select_vulns (db w) id).

(** The dictionary literal of [get_scan_data], before the loop. *)
Definition data_of_scan (scan : ScanRow) : ScanData :=
  {| scan_id := scans_id scan;
     target_url := scans_target_url scan;
     scan_type := scans_scan_type scan;
     start_time := scans_start_time scan;
     end_time := scans_end_time scan;
     total_alerts := scans_total_alerts scan;
     high_risk := scans_high_risk scan;
     medium_risk := scans_medium_risk scan;
     low_risk := scans_low_risk scan;
     status := scans_status scan;
     vulnerabilities := [] |}.

(** [get_scan_data]: [None] is Python's [None]; a fetched row is a tuple of
    ten columns, hence truthy. *)
Definition get_scan_data (self : VIPReportGenerator) (id : Z) : M (option ScanData) :=
  let* conn := connect (db_path self) in
  let* scan := fetchone_scan conn id in
  match scan with
  | None =>
      let* _ := close conn in
      ret None
  | Some scan =>
      let* vulns := fetchall_vulns conn id in
      let data := data_of_scan scan in
      let data := fold_left (fun d v => append_vuln d (vuln_of_row v)) vulns data in
      let* _ := close conn in
      ret (Some data)
  end.

(** [not data] for the result of [get_scan_data]: [None] is falsy, a
    dictionary is falsy only when it has no key. *)
Definition not_data (data : option ScanData) : bool :=
  match data with
  | None => true
  | Some d => (data_len d =? 0)%nat
  end.

(** ** Static text of the HTML template

    The literals of [generate_html_report], cut at the substitutions; a
    double quote inside a literal is written with [dq]. *)

(** Static text of the page template (source lines 106-527), piece 0. *)
Definition html_page_0 : string :=
  String.concat dq ["
<!DOCTYPE html>
<html lang="; "en"; ">
<head>
    <meta charset="; "UTF-8"; ">
    <meta name="; "viewport"; " content="; "width=device-width, initial-scale=1.0"; ">
    <title>Security Scan Report - "].

(** Static text of the page template (source lines 106-527), piece 1. *)
Definition html_page_1 : string :=
  String.concat dq ["</title>
    <style>
        * {
            margin: 0;
            padding: 0;
            box-sizing: border-box;
        }
        
        body {
            font-family: 'Segoe UI', Tahoma, Geneva, Verdana, sans-serif;
            background: linear-gradient(135deg, #667eea 0%, #764ba2 100%);
            padding: 40px 20px;
            min-height: 100vh;
        }
        
        .container {
            max-width: 1200px;
            margin: 0 auto;
            background: white;
            border-radius: 20px;
            box-shadow: 0 20px 60px rgba(0,0,0,0.3);
            overflow: hidden;
        }
        
        .header {
            background: linear-gradient(135deg, #667eea 0%, #764ba2 100%);
            color: white;
            padding: 60px 40px;
            text-align: center;
            position: relative;
            overflow: hidden;
        }
        
        .header::before {
            content: '';
            position: absolute;
            top: -50%;
            left: -50%;
            width: 200%;
            height: 200%;
            background: radial-gradient(circle, rgba(255,255,255,0.1) 0%, transparent 70%);
            animation: pulse 15s ease-in-out infinite;
        }
        
        @keyframes pulse {
            0%, 100% { transform: scale(1); }
            50% { transform: scale(1.1); }
        }
        
        .header h1 {
            font-size: 3em;
            margin-bottom: 10px;
            text-shadow: 2px 2px 4px rgba(0,0,0,0.3);
            position: relative;
            z-index: 1;
        }
        
        .header .subtitle {
            font-size: 1.2em;
            opacity: 0.9;
            position: relative;
            z-index: 1;
        }
        
        .summary {
            display: grid;
            grid-template-columns: repeat(auto-fit, minmax(250px, 1fr));
            gap: 30px;
            padding: 40px;
            background: #f8f9fa;
        }
        
        .stat-card {
            background: white;
            padding: 30px;
            border-radius: 15px;
            box-shadow: 0 10px 30px rgba(0,0,0,0.1);
            transform: translateY(0);
            transition: all 0.3s ease;
            position: relative;
            overflow: hidden;
        }
        
        .stat-card::before {
            content: '';
            position: absolute;
            top: 0;
            left: 0;
            width: 100%;
            height: 5px;
        }
        
        .stat-card.total::before { background: linear-gradient(90deg, #667eea, #764ba2); }
        .stat-card.high::before { background: linear-gradient(90deg, #f093fb, #f5576c); }
        .stat-card.medium::before { background: linear-gradient(90deg, #ffecd2, #fcb69f); }
        .stat-card.low::before { background: linear-gradient(90deg, #a8edea, #fed6e3); }
        
        .stat-card:hover {
            transform: translateY(-10px);
            box-shadow: 0 15px 40px rgba(0,0,0,0.2);
        }
        
        .stat-card h3 {
            font-size: 0.9em;
            color: #666;
            margin-bottom: 10px;
            text-transform: uppercase;
            letter-spacing: 1px;
        }
        
        .stat-card .number {
            font-size: 3em;
            font-weight: bold;
            background: linear-gradient(135deg, #667eea 0%, #764ba2 100%);
            -webkit-background-clip: text;
            -webkit-text-fill-color: transparent;
        }
        
        .stat-card.high .number {
            background: linear-gradient(135deg, #f093fb 0%, #f5576c 100%);
            -webkit-background-clip: text;
            -webkit-text-fill-color: transparent;
        }
        
        .stat-card.medium .number {
            background: linear-gradient(135deg, #ffecd2 0%, #fcb69f 100%);
            -webkit-background-clip: text;
            -webkit-text-fill-color: transparent;
        }
        
        .stat-card.low .number {
            background: linear-gradient(135deg, #a8edea 0%, #fed6e3 100%);
            -webkit-background-clip: text;
            -webkit-text-fill-color: transparent;
        }
        
        .info-section {
            padding: 40px;
            background: white;
        }
        
        .info-grid {
            display: grid;
            grid-template-columns: repeat(auto-fit, minmax(300px, 1fr));
            gap: 20px;
            margin-bottom: 40px;
        }
        
        .info-item {
            padding: 20px;
            background: #f8f9fa;
            border-radius: 10px;
            border-left: 4px solid #667eea;
        }
        
        .info-item label {
            font-weight: bold;
            color: #667eea;
            display: block;
            margin-bottom: 5px;
        }
        
        .info-item value {
            color: #333;
        }
        
        .vulnerabilities {
            padding: 40px;
            background: white;
        }
        
        .section-title {
            font-size: 2em;
            margin-bottom: 30px;
            color: #333;
            text-align: center;
            position: relative;
            padding-bottom: 15px;
        }
        
        .section-title::after {
            content: '';
            position: absolute;
            bottom: 0;
            left: 50%;
            transform: translateX(-50%);
            width: 100px;
            height: 4px;
            background: linear-gradient(90deg, #667eea, #764ba2);
            border-radius: 2px;
        }
        
        .vuln-card {
            background: white;
            border-radius: 15px;
            padding: 30px;
            margin-bottom: 30px;
            box-shadow: 0 5px 20px rgba(0,0,0,0.1);
            border-left: 6px solid #ddd;
            transition: all 0.3s ease;
        }
        
        .vuln-card:hover {
            box-shadow: 0 10px 30px rgba(0,0,0,0.15);
            transform: translateX(5px);
        }
        
        .vuln-card.high { border-left-color: #f5576c; }
        .vuln-card.medium { border-left-color: #fcb69f; }
        .vuln-card.low { border-left-color: #a8edea; }
        
        .vuln-header {
            display: flex;
            justify-content: space-between;
            align-items: center;
            margin-bottom: 20px;
        }
        
        .vuln-title {
            font-size: 1.5em;
            color: #333;
            font-weight: bold;
        }
        
        .severity-badge {
            padding: 8px 20px;
            border-radius: 25px;
            font-weight: bold;
            font-size: 0.9em;
            text-transform: uppercase;
            letter-spacing: 1px;
            box-shadow: 0 4px 10px rgba(0,0,0,0.2);
        }
        
        .severity-badge.high {
            background: linear-gradient(135deg, #f093fb 0%, #f5576c 100%);
            color: white;
        }
        
        .severity-badge.medium {
            background: linear-gradient(135deg, #ffecd2 0%, #fcb69f 100%);
            color: #8B4513;
        }
        
        .severity-badge.low {
            background: linear-gradient(135deg, #a8edea 0%, #fed6e3 100%);
            color: #333;
        }
        
        .vuln-content {
            color: #666;
            line-height: 1.8;
        }
        
        .vuln-content p {
            margin-bottom: 15px;
        }
        
        .vuln-content strong {
            color: #333;
            display: inline-block;
            margin-right: 10px;
        }
        
        .solution-box {
            background: linear-gradient(135deg, #d4fc79 0%, #96e6a1 100%);
            padding: 20px;
            border-radius: 10px;
            margin-top: 20px;
            border-left: 4px solid #4CAF50;
        }
        
        .solution-box strong {
            color: #2e7d32;
            font-size: 1.1em;
        }
        
        .footer {
            background: #2c3e50;
            color: white;
            padding: 40px;
            text-align: center;
        }
        
        .footer p {
            margin-bottom: 10px;
            opacity: 0.8;
        }
        
        .btn-3d {
            display: inline-block;
            padding: 15px 40px;
            margin: 10px;
            border-radius: 50px;
            font-weight: bold;
            text-decoration: none;
            color: white;
            box-shadow: 0 8px 15px rgba(0,0,0,0.3);
            transition: all 0.3s ease;
            position: relative;
            overflow: hidden;
        }
        
        .btn-3d::before {
            content: '';
            position: absolute;
            top: 0;
            left: -100%;
            width: 100%;
            height: 100%;
            background: rgba(255,255,255,0.2);
            transition: all 0.3s ease;
        }
        
        .btn-3d:hover::before {
            left: 100%;
        }
        
        .btn-3d:hover {
            transform: translateY(-5px);
            box-shadow: 0 15px 30px rgba(0,0,0,0.4);
        }
        
        .btn-3d:active {
            transform: translateY(-2px);
            box-shadow: 0 5px 10px rgba(0,0,0,0.3);
        }
        
        .btn-primary {
            background: linear-gradient(135deg, #667eea 0%, #764ba2 100%);
        }
        
        .btn-success {
            background: linear-gradient(135deg, #11998e 0%, #38ef7d 100%);
        }
        
        .btn-danger {
            background: linear-gradient(135deg, #f093fb 0%, #f5576c 100%);
        }
        
        .action-buttons {
            text-align: center;
            padding: 40px;
            background: #f8f9fa;
        }
        
        @media print {
            .action-buttons, .btn-3d { display: none; }
            body { background: white; }
            .container { box-shadow: none; }
        }
    </style>
</head>
<body>
    <div class="; "container"; ">
        <!-- Header -->
        <div class="; "header"; ">
            <h1>üõ°Ô∏è SECURITY SCAN REPORT</h1>
            <p class="; "subtitle"; ">Comprehensive Vulnerability Assessment</p>
        </div>
        
        <!-- Summary Cards -->
        <div class="; "summary"; ">
            <div class="; "stat-card total"; ">
                <h3>Total Issues</h3>
                <div class="; "number"; ">"].

(** Static text of the page template (source lines 106-527), piece 2. *)
Definition html_page_2 : string :=
  String.concat dq ["</div>
            </div>
            <div class="; "stat-card high"; ">
                <h3>High Risk</h3>
                <div class="; "number"; ">"].

(** Static text of the page template (source lines 106-527), piece 3. *)
Definition html_page_3 : string :=
  String.concat dq ["</div>
            </div>
            <div class="; "stat-card medium"; ">
                <h3>Medium Risk</h3>
                <div class="; "number"; ">"].

(** Static text of the page template (source lines 106-527), piece 4. *)
Definition html_page_4 : string :=
  String.concat dq ["</div>
            </div>
            <div class="; "stat-card low"; ">
                <h3>Low Risk</h3>
                <div class="; "number"; ">"].

(** Static text of the page template (source lines 106-527), piece 5. *)
Definition html_page_5 : string :=
  String.concat dq ["</div>
            </div>
        </div>
        
        <!-- Scan Information -->
        <div class="; "info-section"; ">
            <h2 class="; "section-title"; ">Scan Information</h2>
            <div class="; "info-grid"; ">
                <div class="; "info-item"; ">
                    <label>Target URL:</label>
                    <value>"].

(** Static text of the page template (source lines 106-527), piece 6. *)
Definition html_page_6 : string :=
  String.concat dq ["</value>
                </div>
                <div class="; "info-item"; ">
                    <label>Scan Type:</label>
                    <value>"].

(** Static text of the page template (source lines 106-527), piece 7. *)
Definition html_page_7 : string :=
  String.concat dq ["</value>
                </div>
                <div class="; "info-item"; ">
                    <label>Start Time:</label>
                    <value>"].

(** Static text of the page template (source lines 106-527), piece 8. *)
Definition html_page_8 : string :=
  String.concat dq ["</value>
                </div>
                <div class="; "info-item"; ">
                    <label>End Time:</label>
                    <value>"].

(** Static text of the page template (source lines 106-527), piece 9. *)
Definition html_page_9 : string :=
  String.concat dq ["</value>
                </div>
                <div class="; "info-item"; ">
                    <label>Status:</label>
                    <value>"].

(** Static text of the page template (source lines 106-527), piece 10. *)
Definition html_page_10 : string :=
  String.concat dq ["</value>
                </div>
                <div class="; "info-item"; ">
                    <label>Report Generated:</label>
                    <value>"].

(** Static text of the page template (source lines 106-527), piece 11. *)
Definition html_page_11 : string :=
  String.concat dq ["</value>
                </div>
            </div>
        </div>
        
        <!-- Vulnerabilities -->
        <div class="; "vulnerabilities"; ">
            <h2 class="; "section-title"; ">Detailed Findings</h2>
"].

(** Static text of a finding card (source lines 532-542), piece 0. *)
Definition html_card_0 : string :=
  String.concat dq ["
            <div class="; "vuln-card "].

(** Static text of a finding card (source lines 532-542), piece 1. *)
Definition html_card_1 : string :=
  String.concat dq [EmptyString; ">
                <div class="; "vuln-header"; ">
                    <div class="; "vuln-title"; ">"].

(** Static text of a finding card (source lines 532-542), piece 2. *)
Definition html_card_2 : string :=
  ". ".

(** Static text of a finding card (source lines 532-542), piece 3. *)
Definition html_card_3 : string :=
  String.concat dq ["</div>
                    <div class="; "severity-badge "].

(** Static text of a finding card (source lines 532-542), piece 4. *)
Definition html_card_4 : string :=
  String.concat dq [EmptyString; ">"].

(** Static text of a finding card (source lines 532-542), piece 5. *)
Definition html_card_5 : string :=
  String.concat dq ["</div>
                </div>
                <div class="; "vuln-content"; ">
                    <p><strong>üîç Description:</strong> "].

(** Static text of a finding card (source lines 532-542), piece 6. *)
Definition html_card_6 : string :=
  "</p>
                    <p><strong>üìç Location:</strong> ".

(** Static text of a finding card (source lines 532-542), piece 7. *)
Definition html_card_7 : string :=
  "</p>
                    <p><strong>üéØ Confidence:</strong> ".

(** Static text of a finding card (source lines 532-542), piece 8. *)
Definition html_card_8 : string :=
  "</p>
".

(** Static text of the solution box (source lines 545-550), piece 0. *)
Definition html_solution_0 : string :=
  String.concat dq ["
                    <div class="; "solution-box"; ">
                        <p><strong>üí° Recommended Solution:</strong></p>
                        <p>"].

(** Static text of the solution box (source lines 545-550), piece 1. *)
Definition html_solution_1 : string :=
  "</p>
                    </div>
".

(** Static text of the reference line (source lines 553-555), piece 0. *)
Definition html_reference_0 : string :=
  "
                    <p><strong>üìö Reference:</strong> ".

(** Static text of the reference line (source lines 553-555), piece 1. *)
Definition html_reference_1 : string :=
  "</p>
".

(** Closing tags of a finding card (source lines 557-560). *)
Definition html_card_close : string :=
  "
                </div>
            </div>
".

(** Static text after the findings, up to the report identifier (source lines 562-575). *)
Definition html_footer_0 : string :=
  String.concat dq ["
        </div>
        
        <!-- Action Buttons -->
        <div class="; "action-buttons"; ">
            <a href="; "#"; " onclick="; "window.print(); return false;"; " class="; "btn-3d btn-primary"; ">üñ®Ô∏è Print Report</a>
            <a href="; "#"; " onclick="; "window.location.reload();"; " class="; "btn-3d btn-success"; ">üîÑ Refresh</a>
            <a href="; "#"; " class="; "btn-3d btn-danger"; ">üìß Email Report</a>
        </div>
        
        <!-- Footer -->
        <div class="; "footer"; ">
            <p><strong>Generated by Web Security Scanner v1.0</strong></p>
            <p>Powered by OWASP ZAP | Report ID: "].

(** Static text between the report identifier and the year (source lines 575-576). *)
Definition html_footer_1 : string :=
  "</p>
            <p>¬© ".

(** Static text after the year, to the end of the document (source lines 576-615). *)
Definition html_footer_2 : string :=
  String.concat dq [" - All Rights Reserved</p>
        </div>
    </div>
    
    <script>
        // Add smooth scroll
        document.querySelectorAll('a[href^="; "#"; "]').forEach(anchor => {
            anchor.addEventListener('click', function (e) {
                e.preventDefault();
                document.querySelector(this.getAttribute('href')).scrollIntoView({
                    behavior: 'smooth'
                });
            });
        });
        
        // Add animation on scroll
        const observerOptions = {
            threshold: 0.1,
            rootMargin: '0px 0px -100px 0px'
        };
        
        const observer = new IntersectionObserver((entries) => {
            entries.forEach(entry => {
                if (entry.isIntersecting) {
                    entry.target.style.opacity = '1';
                    entry.target.style.transform = 'translateY(0)';
                }
            });
        }, observerOptions);
        
        document.querySelectorAll('.vuln-card').forEach(card => {
            card.style.opacity = '0';
            card.style.transform = 'translateY(30px)';
            card.style.transition = 'all 0.6s ease';
            observer.observe(card);
        });
    </script>
</body>
</html>
"].

(** Text of the title paragraph (source line 658). *)
Definition pdf_title_text : string :=
  "üõ°Ô∏è SECURITY SCAN REPORT".

(** Summary text of a successful format (source line 902). *)
Definition status_success : string :=
  "‚úÖ SUCCESS".

(** Summary text of a failed format (source line 902). *)
Definition status_failed : string :=
  "‚ùå FAILED".

(** ** The HTML renderer *)

(** The first f-string of [generate_html_report]; the two [title()] results
    and the formatted clock reading are passed in evaluated. *)
Definition html_page (d : ScanData) (scan_type_title status_title generated : string)
  : string :=
  html_page_0 +:+ py_str (target_url d) +:+
  html_page_1 +:+ py_str (total_alerts d) +:+
  html_page_2 +:+ py_str (high_risk d) +:+
  html_page_3 +:+ py_str (medium_risk d) +:+
  html_page_4 +:+ py_str (low_risk d) +:+
  html_page_5 +:+ py_str (target_url d) +:+
  html_page_6 +:+ scan_type_title +:+
  html_page_7 +:+ py_str (start_time d) +:+
  html_page_8 +:+ py_str (end_time d) +:+
  html_page_9 +:+ status_title +:+
  html_page_10 +:+ generated +:+
  html_page_11.

(** The f-string that opens a finding card. *)
Definition html_card (idx : nat) (vuln : Vuln) (severity_class : string) : string :=
  html_card_0 +:+ severity_class +:+
  html_card_1 +:+ pretty idx +:+
  html_card_2 +:+ py_str (name vuln) +:+
  html_card_3 +:+ severity_class +:+
  html_card_4 +:+ py_str (severity vuln) +:+
  html_card_5 +:+ py_str (description vuln) +:+
  html_card_6 +:+ py_str (url vuln) +:+
  html_card_7 +:+ py_str (confidence vuln) +:+
  html_card_8.

Definition html_solution (vuln : Vuln) : string :=
  html_solution_0 +:+ py_str (solution vuln) +:+ html_solution_1.

Definition html_reference (vuln : Vuln) : string :=
  html_reference_0 +:+ py_str (reference vuln) +:+ html_reference_1.

(** The text one iteration of the loop adds to [html]. *)
Definition html_entry (idx : nat) (vuln : Vuln) (severity_class : string) : string :=
  html_card idx vuln severity_class +:+
  (if truthy (solution vuln) then html_solution vuln else EmptyString) +:+
  (if truthy (reference vuln) then html_reference vuln else EmptyString) +:+
  html_card_close.

(** [for idx, vuln in enumerate(data['vulnerabilities'], 1): ...] *)
Fixpoint html_vulns (idx : nat) (vulns : list Vuln) (html : string) : M string :=
  match vulns with
  | [] => ret html
  | vuln :: rest =>
      let* severity_class := call_str_method str_lower (severity vuln) in
      html_vulns (S idx) rest (html +:+ html_entry idx vuln severity_class)
  end.

Definition html_footer (id : Z) (this_year : Z) : string :=
  html_footer_0 +:+ pretty id +:+ html_footer_1 +:+ pretty this_year +:+ html_footer_2.

Definition not_found_message (id : Z) : string :=
  "[!] Scan " +:+ pretty id +:+ " not found".

Definition generate_html_report (self : VIPReportGenerator) (id : Z)
    (output_file : string) : M bool :=
  let* _ := log (EvCall "generate_html_report" id output_file) in
  let* data := get_scan_data self id in
  match data with
  | None =>
      let* _ := print (not_found_message id) in
      ret false
  | Some d =>
      if not_data data then
        let* _ := print (not_found_message id) in
        ret false
      else
        let* scan_type_title := call_str_method str_title (scan_type d) in
        let* status_title := call_str_method str_title (status d) in
        let* generated := now in
        let html := html_page d scan_type_title status_title (strftime generated) in
        let* html := html_vulns 1 (vulnerabilities d) html in
        let* today := now in
        let html := html +:+ html_footer id (year today) in
        let* _ := write_file output_file (HtmlFile html) in
        let* _ := print ("[+] VIP HTML Report generated: " +:+ output_file) in
        ret true
  end.

(** ** The PDF renderer *)

Definition pdf_summary_data (d : ScanData) : list (list value) :=
  [ [VStr "Metric"; VStr "Count"];
    [VStr "Total Issues"; VStr (py_str (total_alerts d))];
    [VStr "High Risk"; VStr (py_str (high_risk d))];
    [VStr "Medium Risk"; VStr (py_str (medium_risk d))];
    [VStr "Low Risk"; VStr (py_str (low_risk d))] ].

Definition pdf_info_data (d : ScanData) (scan_type_title status_title : string)
  : list (list value) :=
  [ [VStr "Target URL:"; target_url d];
    [VStr "Scan Type:"; VStr scan_type_title];
    [VStr "Start Time:"; start_time d];
    [VStr "End Time:"; end_time d];
    [VStr "Status:"; VStr status_title] ].

(** The flowables one iteration of the loop appends to [story]. *)
Definition pdf_entry (idx : nat) (vuln : Vuln) : list flowable :=
  [ Paragraph ("<b>" +:+ pretty idx +:+ ". " +:+ py_str (name vuln) +:+ "</b> ["
               +:+ py_str (severity vuln) +:+ "]") Heading3;
    Paragraph ("<b>Description:</b> " +:+ py_str (description vuln)) Normal;
    Paragraph ("<b>Location:</b> " +:+ py_str (url vuln)) Normal ]
  ++ (if truthy (solution vuln)
      then [Paragraph ("<b>Solution:</b> " +:+ py_str (solution vuln)) Normal]
      else [])
  ++ [Spacer 1 20].

Fixpoint pdf_vulns (idx : nat) (vulns : list Vuln) (story : list flowable)
  : list flowable :=
  match vulns with
  | [] => story
  | vuln :: rest => pdf_vulns (S idx) rest (story ++ pdf_entry idx vuln)
  end.

Definition pdf_unavailable_message : string :=
  "[!] PDF generation not available. Install: pip install reportlab".

Definition generate_pdf_report (self : VIPReportGenerator) (id : Z)
    (output_file : string) : M bool :=
  let* _ := log (EvCall "generate_pdf_report" id output_file) in
  let* w := get_world in
  if negb (PDF_AVAILABLE (caps w)) then
    let* _ := print pdf_unavailable_message in
    ret false
  else
    let* data := get_scan_data self id in
    match data with
    | None =>
        let* _ := print (not_found_message id) in
        ret false
    | Some d =>
        if not_data data then
          let* _ := print (not_found_message id) in
          ret false
        else
          let story :=
            [ Paragraph pdf_title_text CustomTitle; Spacer 1 20;
              Table (pdf_summary_data d) [3; 2] SummaryTableStyle; Spacer 1 30;
              Paragraph "Scan Information" CustomHeading ] in
          let* scan_type_title := call_str_method str_title (scan_type d) in
          let* status_title := call_str_method str_title (status d) in
          let story := story ++
            [ Table (pdf_info_data d scan_type_title status_title) [2; 4] InfoTableStyle;
              PageBreak;
              Paragraph "Detailed Findings" CustomHeading; Spacer 1 20 ] in
          let story := pdf_vulns 1 (vulnerabilities d) story in
          let* _ := write_file output_file (PdfFile story) in
          let* _ := print ("[+] PDF Report generated: " +:+ output_file) in
          ret true
    end.

(** ** The JSON renderer *)

Definition json_of_vuln (v : Vuln) : json :=
  JObj [ ("id", JInt (vuln_id v));
         ("name", json_of_value (name v));
         ("severity", json_of_value (severity v));
         ("confidence", json_of_value (confidence v));
         ("url", json_of_value (url v));
         ("description", json_of_value (description v));
         ("solution", json_of_value (solution v));
         ("reference", json_of_value (reference v)) ].

(** The dictionary [data] as [json.dump] sees it. *)
Definition json_of_data (d : ScanData) : json :=
  JObj [ ("scan_id", JInt (scan_id d));
         ("target_url", json_of_value (target_url d));
         ("scan_type", json_of_value (scan_type d));
         ("start_time", json_of_value (start_time d));
         ("end_time", json_of_value (end_time d));
         ("total_alerts", json_of_value (total_alerts d));
         ("high_risk", json_of_value (high_risk d));
         ("medium_risk", json_of_value (medium_risk d));
         ("low_risk", json_of_value (low_risk d));
         ("status", json_of_value (status d));
         ("vulnerabilities", JList (map json_of_vuln (vulnerabilities d))) ].

Definition generate_json_report (self : VIPReportGenerator) (id : Z)
    (output_file : string) : M bool :=
  let* _ := log (EvCall "generate_json_report" id output_file) in
  let* data := get_scan_data self id in
  match data with
  | None =>
      let* _ := print (not_found_message id) in
      ret false
  | Some d =>
      if not_data data then
        let* _ := print (not_found_message id) in
        ret false
      else
        let* _ := write_file output_file (JsonFile (json_of_data d)) in
        let* _ := print ("[+] JSON Report generated: " +:+ output_file) in
        ret true
  end.

(** ** The CSV renderer *)

(** The text [csv.writer] writes for a cell, before quoting: [None] becomes
    the empty string, any other value its [str]. *)
Definition csv_cell (v : value) : string :=
  match v with
  | VNone => EmptyString
  | _ => py_str v
  end.

Definition csv_header : list string :=
  ["Vulnerability Name"; "Severity"; "Confidence"; "URL"; "Description"; "Solution"].

Definition csv_row (vuln : Vuln) : list string :=
  [ csv_cell (name vuln); csv_cell (severity vuln); csv_cell (confidence vuln);
    csv_cell (url vuln); csv_cell (description vuln); csv_cell (solution vuln) ].

Definition generate_csv_report (self : VIPReportGenerator) (id : Z)
    (output_file : string) : M bool :=
  let* _ := log (EvCall "generate_csv_report" id output_file) in
  let* data := get_scan_data self id in
  match data with
  | None =>
      let* _ := print (not_found_message id) in
      ret false
  | Some d =>
      if not_data data then
        let* _ := print (not_found_message id) in
        ret false
      else
        let rows := csv_header :: map csv_row (vulnerabilities d) in
        let* _ := write_file output_file (CsvFile rows) in
        let* _ := print ("[+] CSV Report generated: " +:+ output_file) in
        ret true
  end.

(** ** The DOCX renderer *)

Definition docx_summary_cells (d : ScanData) : list (list value) :=
  [ [VStr "Total Issues"; VStr (py_str (total_alerts d))];
    [VStr "High Risk"; VStr (py_str (high_risk d))];
    [VStr "Medium Risk"; VStr (py_str (medium_risk d))];
    [VStr "Low Risk"; VStr (py_str (low_risk d))];
    [VStr "Target URL"; target_url d] ].

(** The blocks one iteration of the loop adds to the document. *)
Definition docx_entry (idx : nat) (vuln : Vuln) : list docx_block :=
  [ DocxHeading (pretty idx +:+ ". " +:+ py_str (name vuln)) 2 false;
    DocxParagraph ("Severity: " +:+ py_str (severity vuln));
    DocxParagraph ("Description: " +:+ py_str (description vuln));
    DocxParagraph ("Location: " +:+ py_str (url vuln)) ]
  ++ (if truthy (solution vuln)
      then [DocxParagraph ("Solution: " +:+ py_str (solution vuln))]
      else [])
  ++ [DocxParagraph EmptyString].

Fixpoint docx_vulns (idx : nat) (vulns : list Vuln) (doc : list docx_block)
  : list docx_block :=
  match vulns with
  | [] => doc
  | vuln :: rest => docx_vulns (S idx) rest (doc ++ docx_entry idx vuln)
  end.

Definition docx_unavailable_message : string :=
  "[!] DOCX generation not available. Install: pip install python-docx".

Definition generate_docx_report (self : VIPReportGenerator) (id : Z)
    (output_file : string) : M bool :=
  let* _ := log (EvCall "generate_docx_report" id output_file) in
  let* w := get_world in
  if negb (DOCX_AVAILABLE (caps w)) then
    let* _ := print docx_unavailable_message in
    ret false
  else
    let* data := get_scan_data self id in
    match data with
    | None =>
        let* _ := print (not_found_message id) in
        ret false
    | Some d =>
        if not_data data then
          let* _ := print (not_found_message id) in
          ret false
        else
          let doc :=
            [ DocxHeading "SECURITY SCAN REPORT" 0 true;
              DocxHeading "Summary" 1 false;
              DocxTable "Light Grid Accent 1" (docx_summary_cells d);
              DocxPageBreak;
              DocxHeading "Detailed Findings" 1 false ] in
          let doc := docx_vulns 1 (vulnerabilities d) doc in
          let* _ := write_file output_file (DocxFile doc) in
          let* _ := print ("[+] DOCX Report generated: " +:+ output_file) in
          ret true
    end.

(** ** The Excel renderer *)

Definition excel_summary (d : ScanData) : list (string * value) :=
  [ ("A1", VStr "SECURITY SCAN REPORT");
    ("A3", VStr "Target URL");   ("B3", target_url d);
    ("A4", VStr "Scan Type");    ("B4", scan_type d);
    ("A5", VStr "Total Issues"); ("B5", total_alerts d);
    ("A6", VStr "High Risk");    ("B6", high_risk d);
    ("A7", VStr "Medium Risk");  ("B7", medium_risk d);
    ("A8", VStr "Low Risk");     ("B8", low_risk d) ].

Definition excel_headers : list value :=
  [ VStr "#"; VStr "Name"; VStr "Severity"; VStr "Confidence"; VStr "URL";
    VStr "Description"; VStr "Solution" ].

Definition excel_row (idx : nat) (vuln : Vuln) : list value :=
  [ VInt (Z.of_nat idx); name vuln; severity vuln; confidence vuln; url vuln;
    description vuln; solution vuln ].

Fixpoint excel_vulns (idx : nat) (vulns : list Vuln) (rows : list (list value))
  : list (list value) :=
  match vulns with
  | [] => rows
  | vuln :: rest => excel_vulns (S idx) rest (rows ++ [excel_row idx vuln])
  end.

Definition excel_unavailable_message : string :=
  "[!] Excel generation not available. Install: pip install openpyxl".

Definition generate_excel_report (self : VIPReportGenerator) (id : Z)
    (output_file : string) : M bool :=
  let* _ := log (EvCall "generate_excel_report" id output_file) in
  let* w := get_world in
  if negb (EXCEL_AVAILABLE (caps w)) then
    let* _ := print excel_unavailable_message in
    ret false
  else
    let* data := get_scan_data self id in
    match data with
    | None =>
        let* _ := print (not_found_message id) in
        ret false
    | Some d =>
        if not_data data then
          let* _ := print (not_found_message id) in
          ret false
        else
          let wb := {| summary_cells := excel_summary d;
                       vulnerability_rows :=
                         excel_vulns 1 (vulnerabilities d) [excel_headers] |} in
          let* _ := write_file output_file (XlsxFile wb) in
          let* _ := print ("[+] Excel Report generated: " +:+ output_file) in
          ret true
    end.

(** ** The multi-format orchestrator *)

(** [d[k] = v] on a dictionary kept in insertion order. *)
Fixpoint dict_set {V : Type} (k : string) (v : V) (d : list (string * V))
  : list (string * V) :=
  match d with
  | [] => [(k, v)]
  | (k', v') :: d' =>
      if String.eqb k k' then (k, v) :: d' else (k', v') :: dict_set k v d'
  end.

Definition renderer : Type := Z -> string -> M bool.

(** The dictionary [formats] of [generate_all_formats]. *)
Definition formats (self : VIPReportGenerator) (c : Caps) (base_name : string)
  : list (string * (renderer * string)) :=
  let formats :=
    [ ("HTML", (generate_html_report self, base_name +:+ ".html"));
      ("JSON", (generate_json_report self, base_name +:+ ".json"));
      ("CSV", (generate_csv_report self, base_name +:+ ".csv")) ] in
  let formats :=
    if PDF_AVAILABLE c
    then dict_set "PDF" (generate_pdf_report self, base_name +:+ ".pdf") formats
    else formats in
  let formats :=
    if DOCX_AVAILABLE c
    then dict_set "DOCX" (generate_docx_report self, base_name +:+ ".docx") formats
    else formats in
  if EXCEL_AVAILABLE c
  then dict_set "Excel" (generate_excel_report self, base_name +:+ ".xlsx") formats
  else formats.

(** The first loop of [generate_all_formats]. *)
Fixpoint run_formats (id : Z) (fs : list (string * (renderer * string)))
    (results : list (string * bool)) : M (list (string * bool)) :=
  match fs with
  | [] => ret results
  | (format_name, (func, filename)) :: rest =>
      let* _ := print (newline +:+ "[*] Generating " +:+ format_name +:+ " report...") in
      let* success := func id filename in
      run_formats id rest (dict_set format_name success results)
  end.

(** The second loop: one summary line per recorded format. *)
Fixpoint print_summary (results : list (string * bool)) : M unit :=
  match results with
  | [] => ret tt
  | (format_name, success) :: rest =>
      let status := if success then status_success else status_failed in
      let* _ := print (ljust 12 format_name +:+ " : " +:+ status) in
      print_summary rest
  end.

Definition generate_all_formats (self : VIPReportGenerator) (id : Z)
    (base_name : string) : M (list (string * bool)) :=
  let* _ := print (newline +:+ str_repeat "=" 60) in
  let* _ := print "GENERATING REPORTS IN ALL FORMATS" in
  let* _ := print (str_repeat "=" 60) in
  let* w := get_world in
  let* results := run_formats id (formats self (caps w) base_name) [] in
  let* _ := print (newline +:+ str_repeat "=" 60) in
  let* _ := print "REPORT GENERATION SUMMARY" in
  let* _ := print (str_repeat "=" 60) in
  let* _ := print_summary results in
  let* _ := print (str_repeat "=" 60 +:+ newline) in
  ret results.

(** ** Pure views of the code, used to state its properties *)

Inductive format : Type := HTML | JSON | CSV | PDF | DOCX | Excel.

(** The renderer of a format. *)
Definition render (f : format) (self : VIPReportGenerator) : renderer :=
  match f with
  | HTML => generate_html_report self
  | JSON => generate_json_report self
  | CSV => generate_csv_report self
  | PDF => generate_pdf_report self
  | DOCX => generate_docx_report self
  | Excel => generate_excel_report self
  end.

(** Whether the encoder a format needs was loaded. *)
Definition available (c : Caps) (f : format) : bool :=
  match f with
  | PDF => PDF_AVAILABLE c
  | DOCX => DOCX_AVAILABLE c
  | Excel => EXCEL_AVAILABLE c
  | _ => true
  end.

Definition method_name (f : format) : string :=
  match f with
  | HTML => "generate_html_report"
  | JSON => "generate_json_report"
  | CSV => "generate_csv_report"
  | PDF => "generate_pdf_report"
  | DOCX => "generate_docx_report"
  | Excel => "generate_excel_report"
  end.

(** The key of a format in the dictionaries of [generate_all_formats]. *)
Definition format_name (f : format) : string :=
  match f with
  | HTML => "HTML" | JSON => "JSON" | CSV => "CSV"
  | PDF => "PDF" | DOCX => "DOCX" | Excel => "Excel"
  end.

Definition extension (f : format) : string :=
  match f with
  | HTML => ".html" | JSON => ".json" | CSV => ".csv"
  | PDF => ".pdf" | DOCX => ".docx" | Excel => ".xlsx"
  end.

(** The line printed by a renderer whose encoder is absent. *)
Definition unavailable_message (f : format) : string :=
  match f with
  | PDF => pdf_unavailable_message
  | DOCX => docx_unavailable_message
  | Excel => excel_unavailable_message
  | _ => EmptyString
  end.

(** The line printed by a renderer after it wrote its file. *)
Definition generated_message (f : format) (output_file : string) : string :=
  match f with
  | HTML => "[+] VIP HTML Report generated: "
  | JSON => "[+] JSON Report generated: "
  | CSV => "[+] CSV Report generated: "
  | PDF => "[+] PDF Report generated: "
  | DOCX => "[+] DOCX Report generated: "
  | Excel => "[+] Excel Report generated: "
  end +:+ output_file.

(** The formats [generate_all_formats] runs, in the order it runs them. *)
Definition enabled_formats (c : Caps) : list format :=
  List.filter (available c) [HTML; JSON; CSV; PDF; DOCX; Excel].

(** The aggregate of a scan row and its finding rows. *)
Definition aggregate (scan : ScanRow) (rows : list VulnRow) : ScanData :=
  {| scan_id := scans_id scan;
     target_url := scans_target_url scan;
     scan_type := scans_scan_type scan;
     start_time := scans_start_time scan;
     end_time := scans_end_time scan;
     total_alerts := scans_total_alerts scan;
     high_risk := scans_high_risk scan;
     medium_risk := scans_medium_risk scan;
     low_risk := scans_low_risk scan;
     status := scans_status scan;
     vulnerabilities := map vuln_of_row rows |}.

(** What a read of scan [id] yields on store [s]. *)
Definition scan_data_of (s : Store) (id : Z) : option ScanData :=
  match select_scan s id with
  | None => None
  | Some scan => Some (aggregate scan (select_vulns s id))
  end.

(** Whether the store holds a scan [id]. *)
Definition found (s : Store) (id : Z) : bool :=
  match select_scan s id with Some _ => true | None => false end.

(** The events of one read through connection [conn]. *)
Definition reader_events (self : VIPReportGenerator) (conn : nat) (id : Z)
    (found : bool) : list event :=
  EvConnect conn (db_path self) :: EvExecute conn sql_scan id ::
  (if found then [EvExecute conn sql_vulns id] else []) ++ [EvClose conn].


Definition is_str (v : value) : bool :=
  match v with VStr _ => true | _ => false end.

(** The text of a column value on which a [str] method is called. *)
Definition str_of (v : value) : option string :=
  match v with VStr s => Some s | _ => None end.

(** The cards of the findings from index [idx] on; [None] when the
    severity of a finding has no method [lower]. *)
Fixpoint html_findings (idx : nat) (vulns : list Vuln) : option (list string) :=
  match vulns with
  | [] => Some []
  | vuln :: rest =>
      match str_of (severity vuln), html_findings (S idx) rest with
      | Some s, Some cards => Some (html_entry idx vuln (str_lower s) :: cards)
      | _, _ => None
      end
  end.

(** [''.join(pieces)]. *)
Fixpoint join (pieces : list string) : string :=
  match pieces with
  | [] => EmptyString
  | piece :: rest => piece +:+ join rest
  end.

(** The whole HTML text, for clock readings [t1] and [t2]. *)
Definition html_document (id : Z) (d : ScanData) (t1 t2 : datetime) : option string :=
  match str_of (scan_type d), str_of (status d), html_findings 1 (vulnerabilities d) with
  | Some ty, Some st, Some cards =>
      Some (html_page d (str_title ty) (str_title st) (strftime t1)
            +:+ join cards +:+ html_footer id (year t2))
  | _, _, _ => None
  end.

(** The finding blocks from index [idx] on, one list per finding. *)
Fixpoint indexed {A B : Type} (f : nat -> A -> B) (idx : nat) (l : list A) : list B :=
  match l with
  | [] => []
  | x :: rest => f idx x :: indexed f (S idx) rest
  end.

Definition pdf_front (d : ScanData) (scan_type_title status_title : string)
  : list flowable :=
  [ Paragraph pdf_title_text CustomTitle; Spacer 1 20;
    Table (pdf_summary_data d) [3; 2] SummaryTableStyle; Spacer 1 30;
    Paragraph "Scan Information" CustomHeading;
    Table (pdf_info_data d scan_type_title status_title) [2; 4] InfoTableStyle;
    PageBreak;
    Paragraph "Detailed Findings" CustomHeading; Spacer 1 20 ].

Definition pdf_document (d : ScanData) : option (list flowable) :=
  match str_of (scan_type d), str_of (status d) with
  | Some ty, Some st =>
      Some (pdf_front d (str_title ty) (str_title st)
            ++ concat (indexed pdf_entry 1 (vulnerabilities d)))
  | _, _ => None
  end.

Definition docx_front (d : ScanData) : list docx_block :=
  [ DocxHeading "SECURITY SCAN REPORT" 0 true;
    DocxHeading "Summary" 1 false;
    DocxTable "Light Grid Accent 1" (docx_summary_cells d);
    DocxPageBreak;
    DocxHeading "Detailed Findings" 1 false ].

Definition docx_document (d : ScanData) : list docx_block :=
  docx_front d ++ concat (indexed docx_entry 1 (vulnerabilities d)).

Definition excel_document (d : ScanData) : workbook :=
  {| summary_cells := excel_summary d;
     vulnerability_rows := excel_headers :: indexed excel_row 1 (vulnerabilities d) |}.

Definition csv_document (d : ScanData) : list (list string) :=
  csv_header :: map csv_row (vulnerabilities d).

(** The document a renderer hands to its encoder; [None] when building it
    raises [AttributeError]. *)
Definition document (f : format) (id : Z) (d : ScanData) (t1 t2 : datetime)
  : option file_content :=
  match f with
  | HTML => option_map HtmlFile (html_document id d t1 t2)
  | JSON => Some (JsonFile (json_of_data d))
  | CSV => Some (CsvFile (csv_document d))
  | PDF => option_map PdfFile (pdf_document d)
  | DOCX => Some (DocxFile (docx_document d))
  | Excel => Some (XlsxFile (excel_document d))
  end.

(** Readings of the clock a successful renderer takes. *)
Definition clock_reads (f : format) : nat :=
  match f with HTML => 2%nat | _ => 0%nat end.

(** The result and the world of [render f self id output_file] on [w], as
    a case analysis on the capability flag, the store, the document and
    the output path; [tk] is the clock position after a raised
    [AttributeError]. *)
Definition expected (f : format) (self : VIPReportGenerator) (id : Z)
    (output_file : string) (w : World) (tk : nat) : outcome bool * World :=
  let entry := EvCall (method_name f) id output_file in
  let read := reader_events self (next_conn w) id in
  if negb (available (caps w) f) then
    (Ret false,
     upd w (files w) (ticks w) (next_conn w)
         (trace w ++ [entry; EvPrint (unavailable_message f)]))
  else
    match scan_data_of (db w) id with
    | None =>
        (Ret false,
         upd w (files w) (ticks w) (S (next_conn w))
             (trace w ++ entry :: read false ++ [EvPrint (not_found_message id)]))
    | Some d =>
        match document f id d (clock w (ticks w)) (clock w (S (ticks w))) with
        | None =>
            (Raise AttributeError,
             upd w (files w) tk (S (next_conn w)) (trace w ++ entry :: read true))
        | Some doc =>
            if decide (output_file ∈ unwritable w) then
              (Raise OSError,
               upd w (files w) (ticks w + clock_reads f) (S (next_conn w))
                   (trace w ++ entry :: read true))
            else
              (Ret true,
               upd w (<[output_file := doc]> (files w)) (ticks w + clock_reads f)
                   (S (next_conn w))
                   (trace w ++ entry :: read true
                            ++ [EvPrint (generated_message f output_file)]))
        end
    end.

(** The method entries recorded in a trace. *)
Definition calls (t : list event) : list (string * Z * string) :=
  flat_map (fun e => match e with
                     | EvCall m id out => [(m, id, out)]
                     | _ => []
                     end) t.

Definition printed (t : list event) : list string :=
  flat_map (fun e => match e with EvPrint l => [l] | _ => [] end) t.

(** Whether building the document of format [f] from [d] calls string
    methods on text only. *)
Definition well_typed (f : format) (d : ScanData) : bool :=
  match f with
  | HTML => is_str (scan_type d) && is_str (status d)
            && forallb (fun v => is_str (severity v)) (vulnerabilities d)
  | PDF => is_str (scan_type d) && is_str (status d)
  | _ => true
  end.

(** Reading a document back. *)

Definition json_field (k : string) (j : json) : option json :=
  match j with
  | JObj members =>
      option_map snd (List.find (fun m => String.eqb (fst m) k) members)
  | _ => None
  end.

Definition value_of_json (j : json) : option value :=
  match j with
  | JNull => Some VNone
  | JInt n => Some (VInt n)
  | JStr s => Some (VStr s)
  | _ => None
  end.

(** The values of the members [keys] of object [o], when all are there. *)
Fixpoint read_fields (keys : list string) (o : json) : option (list value) :=
  match keys with
  | [] => Some []
  | k :: rest =>
      match json_field k o, read_fields rest o with
      | Some j, Some vs =>
          match value_of_json j with
          | Some v => Some (v :: vs)
          | None => None
          end
      | _, _ => None
      end
  end.

Definition json_findings (j : json) : list json :=
  match json_field "vulnerabilities" j with
  | Some (JList items) => items
  | _ => []
  end.

Definition seven_keys : list string :=
  ["name"; "severity"; "confidence"; "url"; "description"; "solution"; "reference"].


(** The seven descriptive columns of a finding row. *)
Definition seven_fields (row : VulnRow) : list value :=
  [ vulns_name row; vulns_severity row; vulns_confidence row; vulns_url row;
    vulns_description row; vulns_solution row; vulns_reference row ].

(** The same without the reference. *)
Definition six_fields (row : VulnRow) : list value :=
  [ vulns_name row; vulns_severity row; vulns_confidence row; vulns_url row;
    vulns_description row; vulns_solution row ].


(** The content of the file at [path], if any. *)
Definition file_at (w : World) (path : string) : option file_content :=
  files w !! path.






(** The world [w] with store [s] in place of its own. *)
Definition with_db (w : World) (s : Store) : World :=
  {| caps := caps w; db := s; files := files w; unwritable := unwritable w;
     clock := clock w; ticks := ticks w; next_conn := next_conn w;
     trace := trace w |}.








(** The HTML text of the file at [path]. *)
Definition html_text (w : World) (path : string) : string :=
  match file_at w path with
  | Some (HtmlFile text) => text
  | _ => EmptyString
  end.

(** The entry of format [f] in the dictionary [formats]. *)
Definition format_entry (self : VIPReportGenerator) (base_name : string) (f : format)
  : string * (renderer * string) :=
  (format_name f, (render f self, base_name +:+ extension f)).

(** The method entry that invoking the renderer of [f] records. *)
Definition call_of (id : Z) (base_name : string) (f : format) : string * Z * string :=
  (method_name f, id, base_name +:+ extension f).







(** The class of the card of a finding. *)
Definition severity_class (v : Vuln) : string :=
  match str_of (severity v) with
  | Some s => str_lower s
  | None => EmptyString
  end.





(** Whether [pattern] occurs in [text], and where first. *)
Definition position (pattern text : string) : option nat := index 0 pattern text.

(** The high-risk stat block with the number [n] in it. *)
Definition high_risk_block (n : string) : string :=
  "<h3>High Risk</h3>" +:+ newline +:+
  "                <div class=" +:+ dq +:+ "number" +:+ dq +:+ ">" +:+ n +:+ "</div>".

(** ** Sample inputs

    Scan 42 of the specification's example: three findings, stored in the
    order SQL Injection, Reflected XSS, Missing Security Header. *)

Definition generator : VIPReportGenerator := mk_generator "scan_results.db".

Definition scan_42 : ScanRow :=
  mk_scan_row 42 (VStr "http://testphp.vulnweb.com") (VStr "quick")
    (VStr "2024-12-31 23:50:00") (VStr "2024-12-31 23:58:00")
    (VInt 3) (VInt 1) (VInt 1) (VInt 1) (VStr "completed").

Definition finding_1 : VulnRow :=
  mk_vuln_row 1 42 (VStr "SQL Injection") (VStr "High") (VStr "Medium")
    (VStr "http://testphp.vulnweb.com/listproducts.php")
    (VStr "SQL injection may be possible.")
    (VStr "Use prepared statements.")
    (VStr "https://owasp.org/www-community/attacks/SQL_Injection").

Definition finding_2 : VulnRow :=
  mk_vuln_row 2 42 (VStr "Reflected XSS") (VStr "Medium") (VStr "Low")
    (VStr "http://testphp.vulnweb.com/search.php")
    (VStr "Input is echoed without encoding.")
    (VStr EmptyString) VNone.

Definition finding_3 : VulnRow :=
  mk_vuln_row 3 42 (VStr "Missing Security Header") (VStr "Low") (VStr "High")
    (VStr "http://testphp.vulnweb.com/")
    (VStr "X-Content-Type-Options is not set.")
    VNone (VStr EmptyString).

(** A finding of another scan, stored between those of scan 42. *)
Definition finding_of_scan_41 : VulnRow :=
  mk_vuln_row 4 41 (VStr "Cookie Without Secure Flag") (VStr "Low") (VStr "Medium")
    (VStr "http://testhtml5.vulnweb.com/") (VStr "A cookie lacks the flag.")
    VNone VNone.

(** Scan 41 has one finding, scan 40 has none. *)
Definition scan_41 : ScanRow :=
  mk_scan_row 41 (VStr "http://testhtml5.vulnweb.com") (VStr "quick")
    (VStr "2024-12-30 10:00:00") (VStr "2024-12-30 10:04:00")
    (VInt 1) (VInt 0) (VInt 0) (VInt 1) (VStr "completed").

Definition scan_40 : ScanRow :=
  mk_scan_row 40 (VStr "http://testasp.vulnweb.com") (VStr "full")
    (VStr "2024-12-29 09:00:00") VNone
    (VInt 0) (VInt 0) (VInt 0) (VInt 0) (VStr "running").

Definition sample_store : Store :=
  mk_store [scan_40; scan_41; scan_42]
           [finding_1; finding_of_scan_41; finding_2; finding_3].

Definition all_caps : Caps := mk_caps true true true.
Definition no_pdf : Caps := mk_caps false true true.
Definition no_docx : Caps := mk_caps true false true.
Definition no_excel : Caps := mk_caps true true false.

(** A clock that passes midnight of New Year's Eve after two readings. *)
Definition sample_clock (n : nat) : datetime :=
  if (n <? 2)%nat then mk_datetime 2024 12 31 23 59 59
  else mk_datetime 2025 1 1 0 0 0.

Definition world_with (c : Caps) (s : Store) (locked : gset string) : World :=
  mk_world c s ∅ locked sample_clock 0 0 [].

Definition sample_world : World := world_with all_caps sample_store ∅.

(** Finding 1 with another reference. *)
Definition finding_1_other_reference : VulnRow :=
  mk_vuln_row 1 42 (VStr "SQL Injection") (VStr "High") (VStr "Medium")
    (VStr "http://testphp.vulnweb.com/listproducts.php")
    (VStr "SQL injection may be possible.")
    (VStr "Use prepared statements.")
    (VStr "https://cwe.mitre.org/data/definitions/89.html").

Definition store_other_reference : Store :=
  mk_store [scan_40; scan_41; scan_42]
           [finding_1_other_reference; finding_of_scan_41; finding_2; finding_3].

(** Two HTML reports of scan 42 in a row; the year changes in between. *)
Definition first_run : outcome bool * World :=
  render HTML generator 42 "report.html" sample_world.


(** A world in which [report.html] cannot be opened for writing. *)
Definition locked_html_world : World :=
  world_with all_caps sample_store {["report.html"]}.





(** ** Running the module: the dialogue of the main block *)

(** The banner printed when the module is run (source lines 911-916). *)
Definition main_banner : string :=
  "
    ‚ïî‚ïê‚ïê‚ïê‚ïê‚ïê‚ïê‚ïê‚ïê‚ïê‚ïê‚ïê‚ïê‚ïê‚ïê‚ïê‚ïê‚ïê‚ïê‚ïê‚ïê‚ïê‚ïê‚ïê‚ïê‚ïê‚ïê‚ïê‚ïê‚ïê‚ïê‚ïê‚ïê‚ïê‚ïê‚ïê‚ïê‚ïê‚ïê‚ïê‚ïê‚ïê‚ïê‚ïê‚ïê‚ïê‚ïê‚ïê‚ïê‚ïê‚ïê‚ïê‚ïê‚ïê‚ïê‚ïê‚ïê‚ïê‚ïê‚ïê‚ïó
    ‚ïë           VIP REPORT GENERATOR v2.0                      ‚ïë
    ‚ïë    Multiple Formats: HTML, PDF, JSON, CSV, DOCX, Excel  ‚ïë
    ‚ïö‚ïê‚ïê‚ïê‚ïê‚ïê‚ïê‚ïê‚ïê‚ïê‚ïê‚ïê‚ïê‚ïê‚ïê‚ïê‚ïê‚ïê‚ïê‚ïê‚ïê‚ïê‚ïê‚ïê‚ïê‚ïê‚ïê‚ïê‚ïê‚ïê‚ïê‚ïê‚ïê‚ïê‚ïê‚ïê‚ïê‚ïê‚ïê‚ïê‚ïê‚ïê‚ïê‚ïê‚ïê‚ïê‚ïê‚ïê‚ïê‚ïê‚ïê‚ïê‚ïê‚ïê‚ïê‚ïê‚ïê‚ïê‚ïê‚ïê‚ïù
    ".

(** [VIPReportGenerator(db_path)]; the path defaults to [scan_results.db]. *)
Definition init_generator (path : option string) : VIPReportGenerator :=
  match path with
  | Some p => mk_generator p
  | None => mk_generator "scan_results.db"
  end.


(** ASCII white space, as [str.strip] removes it. *)
Definition is_space (c : ascii) : bool :=
  let n := nat_of_ascii c in
  ((9 <=? n) && (n <=? 13) || (28 <=? n) && (n <=? 32))%nat.

Fixpoint lstrip (s : string) : string :=
  match s with
  | EmptyString => EmptyString
  | String c rest => if is_space c then lstrip rest else s
  end.

Fixpoint rstrip (s : string) : string :=
  match s with
  | EmptyString => EmptyString
  | String c rest =>
      match rstrip rest with
      | EmptyString => if is_space c then EmptyString else String c EmptyString
      | kept => String c kept
      end
  end.

(** [s.strip()]. *)
Definition py_strip (s : string) : string := rstrip (lstrip s).

Definition is_digit (c : ascii) : bool :=
  ((48 <=? nat_of_ascii c) && (nat_of_ascii c <=? 57))%nat.

Fixpoint all_digits (s : string) : bool :=
  match s with
  | EmptyString => true
  | String c rest => is_digit c && all_digits rest
  end.

(** [s.isdigit()] on ASCII text: at least one character, all of them digits. *)
Definition py_isdigit (s : string) : bool :=
  match s with
  | EmptyString => false
  | _ => all_digits s
  end.

Fixpoint int_from (acc : Z) (s : string) : Z :=
  match s with
  | EmptyString => acc
  | String c rest => int_from (10 * acc + Z.of_nat (nat_of_ascii c - 48)) rest
  end.

(** [int(s)] for a string of digits. *)
Definition py_int (s : string) : Z := int_from 0 s.

(** The lines for which the model of [strip], [isdigit] and [int] is that
    of Python: ASCII text, and at most eighteen digits, so that the
    identifier fits a 64-bit integer of the store. *)
Fixpoint ascii_text (s : string) : bool :=
  match s with
  | EmptyString => true
  | String c rest => (nat_of_ascii c <? 128)%nat && ascii_text rest
  end.


(** The prompt that [input] writes is recorded like a printed line. *)
Definition prompt (text : string) : M unit := log (EvPrint text).


(** The block under [if __name__ == "__main__"], for the two lines typed at
    its prompts; the result is the exit status of the process.  [exit(1)]
    ends the run with status 1, before the second prompt.  The value a
    renderer returns is dropped.  The model covers identifiers that fit a
    64-bit integer of the store. *)
Definition main (scan_line choice_line : string) : M Z :=
  let* _ := print main_banner in
  let generator := init_generator None in
  let* _ := prompt (newline +:+ "Enter Scan ID: ") in
  let scan_id := py_strip scan_line in
  if negb (py_isdigit scan_id) then
    let* _ := print "[!] Invalid Scan ID" in
    ret 1
  else
    let scan_id := py_int scan_id in
    let* _ := print (newline +:+ "Select Report Format:") in
    let* _ := print "1. HTML (VIP 3D Design)" in
    let* _ := print "2. PDF" in
    let* _ := print "3. JSON" in
    let* _ := print "4. CSV" in
    let* _ := print "5. DOCX (Word)" in
    let* _ := print "6. Excel" in
    let* _ := print "7. ALL FORMATS" in
    let* _ := prompt (newline +:+ "Your choice (1-7): ") in
    let choice := py_strip choice_line in
    if String.eqb choice "1" then
      let* _ := generate_html_report generator scan_id "report.html" in ret 0
    else if String.eqb choice "2" then
      let* _ := generate_pdf_report generator scan_id "report.pdf" in ret 0
    else if String.eqb choice "3" then
      let* _ := generate_json_report generator scan_id "report.json" in ret 0
    else if String.eqb choice "4" then
      let* _ := generate_csv_report generator scan_id "report.csv" in ret 0
    else if String.eqb choice "5" then
      let* _ := generate_docx_report generator scan_id "report.docx" in ret 0
    else if String.eqb choice "6" then
      let* _ := generate_excel_report generator scan_id "report.xlsx" in ret 0
    else if String.eqb choice "7" then
      let* _ := generate_all_formats generator scan_id "security_report" in ret 0
    else
      let* _ := print "[!] Invalid choice" in
      ret 0.




(** ** The batch script *)

(** The closing line of the batch script, after its leading newline (source line 41 of batch_scan.py). *)
Definition batch_completed_text : string :=
  "✅ Batch scan completed!".

(** The methods of [SecurityScanner] that [batch_scan.py] calls; the class
    itself is not part of these sources. *)
Record Scanner : Type := mk_scanner {
  start_scan : string -> string -> M value;
  scanner_print_summary : value -> M unit;
  generate_report : value -> string -> M unit
}.

Definition websites : list string :=
  [ "http://testphp.vulnweb.com";
    "http://testhtml5.vulnweb.com";
    "http://testasp.vulnweb.com" ].

(** The dictionary appended to [results] for a site whose scan returned
    [scan]. *)
Definition batch_entry (site : string) (scan : value) : json :=
  if truthy scan then
    JObj [("url", JStr site); ("scan_id", json_of_value scan);
          ("status", JStr "completed")]
  else
    JObj [("url", JStr site); ("scan_id", JNull); ("status", JStr "failed")].

(** [for url in websites: ...] *)
Fixpoint batch_loop (scanner : Scanner) (sites : list string) (results : list json)
  : M (list json) :=
  match sites with
  | [] => ret results
  | site :: rest =>
      let* _ := print (newline +:+ str_repeat "=" 60) in
      let* _ := print ("Scanning: " +:+ site) in
      let* _ := print (str_repeat "=" 60) in
      let* scan := start_scan scanner site "quick" in
      if truthy scan then
        let* _ := scanner_print_summary scanner scan in
        let* _ := generate_report scanner scan
                    ("report_" +:+ py_str scan +:+ ".html") in
        batch_loop scanner rest (results ++ [batch_entry site scan])
      else
        batch_loop scanner rest (results ++ [batch_entry site scan])
  end.

(** The script [batch_scan.py], for a scanner. *)
Definition batch_scan (scanner : Scanner) : M unit :=
  let* results := batch_loop scanner websites [] in
  let* _ := write_file "batch_results.json" (JsonFile (JList results)) in
  let* _ := print (newline +:+ batch_completed_text) in
  let* _ := print ("Total sites scanned: " +:+ pretty (length results)) in
  let* _ := print "Check batch_results.json for summary" in
  ret tt.



(** A scanner whose methods, returning or raising, leave the file
    [batch_results.json] alone. *)
Definition spares_summary {A : Type} (c : M A) : Prop :=
  forall w, files (snd (c w)) !! "batch_results.json"
            = files w !! "batch_results.json".

Definition sparing_scanner (scanner : Scanner) : Prop :=
  (forall site kind, spares_summary (start_scan scanner site kind)) /\
  (forall scan, spares_summary (scanner_print_summary scanner scan)) /\
  (forall scan file, spares_summary (generate_report scanner scan file)).

(** A scanner that finds the first site only: it returns scan 1 for it and
    [None] for every other site, and prints its summary. *)
Definition sample_scanner : Scanner :=
  {| start_scan := fun site _ =>
       if String.eqb site "http://testphp.vulnweb.com" then ret (VInt 1)
       else ret VNone;
     scanner_print_summary := fun scan => print ("Scan " +:+ py_str scan);
     generate_report := fun _ file => print ("Report: " +:+ file) |}.

(** A scanner whose second scan raises. *)
Definition failing_scanner : Scanner :=
  {| start_scan := fun site _ =>
       if String.eqb site "http://testhtml5.vulnweb.com" then raise OSError
       else ret (VInt 1);
     scanner_print_summary := fun scan => print ("Scan " +:+ py_str scan);
     generate_report := fun _ file => print ("Report: " +:+ file) |}.

(** ** More views of the code *)

(** The connections that a trace leaves open: each [connect] adds its
    handle, each [close] removes one occurrence of its handle. *)
Fixpoint remove_first (c : nat) (l : list nat) : list nat :=
  match l with
  | [] => []
  | x :: rest => if (x =? c)%nat then rest else x :: remove_first c rest
  end.





(** Reading the JSON report back into an aggregate. *)

Definition vuln_of_json (o : json) : option Vuln :=
  match json_field "id" o, read_fields seven_keys o with
  | Some (JInt i), Some [n; s; c; u; d; so; r] =>
      Some {| vuln_id := i; name := n; severity := s; confidence := c; url := u;
              description := d; solution := so; reference := r |}
  | _, _ => None
  end.

Fixpoint vulns_of_json (items : list json) : option (list Vuln) :=
  match items with
  | [] => Some []
  | o :: rest =>
      match vuln_of_json o, vulns_of_json rest with
      | Some v, Some vs => Some (v :: vs)
      | _, _ => None
      end
  end.

Definition scan_keys : list string :=
  [ "target_url"; "scan_type"; "start_time"; "end_time"; "total_alerts";
    "high_risk"; "medium_risk"; "low_risk"; "status" ].

Definition data_of_json (j : json) : option ScanData :=
  match json_field "scan_id" j, read_fields scan_keys j,
        json_field "vulnerabilities" j with
  | Some (JInt i), Some [tu; ty; st; en; ta; hr; mr; lr; sta], Some (JList items) =>
      match vulns_of_json items with
      | Some vs =>
          Some {| scan_id := i; target_url := tu; scan_type := ty; start_time := st;
                  end_time := en; total_alerts := ta; high_risk := hr;
                  medium_risk := mr; low_risk := lr; status := sta;
                  vulnerabilities := vs |}
      | None => None
      end
  | _, _, _ => None
  end.

(** A finding row without the fields that format [f] never shows: PDF and
    DOCX show neither confidence nor reference, CSV and Excel show no
    reference. *)
Definition hide (f : format) (r : VulnRow) : VulnRow :=
  match f with
  | PDF | DOCX =>
      {| vulns_id := vulns_id r; vulns_scan_id := vulns_scan_id r;
         vulns_name := vulns_name r; vulns_severity := vulns_severity r;
         vulns_confidence := VNone; vulns_url := vulns_url r;
         vulns_description := vulns_description r;
         vulns_solution := vulns_solution r; vulns_reference := VNone |}
  | CSV | Excel =>
      {| vulns_id := vulns_id r; vulns_scan_id := vulns_scan_id r;
         vulns_name := vulns_name r; vulns_severity := vulns_severity r;
         vulns_confidence := vulns_confidence r; vulns_url := vulns_url r;
         vulns_description := vulns_description r;
         vulns_solution := vulns_solution r; vulns_reference := VNone |}
  | HTML | JSON => r
  end.

Definition hide_store (f : format) (s : Store) : Store :=
  {| scans_table := scans_table s;
     vulnerabilities_table := map (hide f) (vulnerabilities_table s) |}.

(** The same on the aggregate. *)
Definition hide_vuln (f : format) (v : Vuln) : Vuln :=
  match f with
  | PDF | DOCX =>
      {| vuln_id := vuln_id v; name := name v; severity := severity v;
         confidence := VNone; url := url v; description := description v;
         solution := solution v; reference := VNone |}
  | CSV | Excel =>
      {| vuln_id := vuln_id v; name := name v; severity := severity v;
         confidence := confidence v; url := url v; description := description v;
         solution := solution v; reference := VNone |}
  | HTML | JSON => v
  end.

(** The aggregate [d] with [g] applied to each finding. *)
Definition map_vulns (g : Vuln -> Vuln) (d : ScanData) : ScanData :=
  {| scan_id := scan_id d; target_url := target_url d; scan_type := scan_type d;
     start_time := start_time d; end_time := end_time d;
     total_alerts := total_alerts d; high_risk := high_risk d;
     medium_risk := medium_risk d; low_risk := low_risk d; status := status d;
     vulnerabilities := map g (vulnerabilities d) |}.

(** The store [s] with [g] applied to each finding row. *)
Definition map_rows (g : VulnRow -> VulnRow) (s : Store) : Store :=
  {| scans_table := scans_table s;
     vulnerabilities_table := map g (vulnerabilities_table s) |}.

(** [needle] occurs in [text]. *)
Definition occurs_in (needle text : string) : Prop :=
  exists before after, text = before +:+ needle +:+ after.

(** The texts of a finding that every HTML card shows. *)
Definition card_texts (v : Vuln) : list string :=
  [ py_str (name v); py_str (severity v); py_str (description v);
    py_str (url v); py_str (confidence v) ].

(** A finding that carries markup in its name. *)
Definition finding_with_markup : VulnRow :=
  mk_vuln_row 9 42 (VStr "<script>alert(1)</script>") (VStr "High") (VStr "High")
    (VStr "http://testphp.vulnweb.com/guestbook.php")
    (VStr "A stored <b>payload</b> & more.")
    VNone VNone.

Definition store_with_markup : Store :=
  mk_store [scan_42] [finding_with_markup].

(** * Properties *)

(** ** Strings *)

Lemma str_app_cons (x : ascii) (a b : string) :
  String x a +:+ b = String x (a +:+ b).
Proof. reflexivity. Qed.

Lemma str_app_nil_l (a : string) : EmptyString +:+ a = a.
Proof. reflexivity. Qed.

Lemma str_app_assoc (a b c : string) : (a +:+ b) +:+ c = a +:+ (b +:+ c).
Proof.
  induction a as [|x a IH]; [reflexivity|].
  rewrite !str_app_cons. f_equal. exact IH.
Qed.

Lemma str_app_nil_r (a : string) : a +:+ EmptyString = a.
Proof.
  induction a as [|x a IH]; [reflexivity|].
  rewrite str_app_cons. f_equal. exact IH.
Qed.

Lemma str_length_app (a b : string) :
  String.length (a +:+ b) = (String.length a + String.length b)%nat.
Proof.
  induction a as [|x a IH]; [reflexivity|].
  rewrite str_app_cons. simpl. f_equal. exact IH.
Qed.

(** ** The reader *)

Lemma fold_append_vulns (rows : list VulnRow) (d : ScanData) :
  fold_left (fun d v => append_vuln d (vuln_of_row v)) rows d =
  {| scan_id := scan_id d; target_url := target_url d; scan_type := scan_type d;
     start_time := start_time d; end_time := end_time d;
     total_alerts := total_alerts d; high_risk := high_risk d;
     medium_risk := medium_risk d; low_risk := low_risk d; status := status d;
     vulnerabilities := vulnerabilities d ++ map vuln_of_row rows |}.
Proof.
  revert d. induction rows as [|v rows IH]; intros d; simpl.
  - rewrite app_nil_r. now destruct d.
  - rewrite IH. simpl. now rewrite <- app_assoc.
Qed.

Lemma get_scan_data_run (self : VIPReportGenerator) (id : Z) (w : World) :
  get_scan_data self id w =
  (Ret (scan_data_of (db w) id),
   upd w (files w) (ticks w) (S (next_conn w))
       (trace w ++ reader_events self (next_conn w) id (found (db w) id))).
Proof.
  unfold get_scan_data, scan_data_of, found, reader_events, bind, connect,
    fetchone_scan, fetchall_vulns, close, log, get_world, ret, bind.
  simpl. destruct (select_scan (db w) id) as [scan|]; simpl.
  - rewrite fold_append_vulns. simpl.
    unfold upd; simpl. rewrite <- !app_assoc. reflexivity.
  - unfold upd; simpl. rewrite <- !app_assoc. reflexivity.
Qed.

Lemma found_scan_data (s : Store) (id : Z) :
  found s id = match scan_data_of s id with Some _ => true | None => false end.
Proof. unfold found, scan_data_of. now destruct (select_scan s id). Qed.

(** ** The loops of the renderers *)

Lemma html_vulns_run (vulns : list Vuln) (idx : nat) (html : string) (w : World) :
  html_vulns idx vulns html w =
  match html_findings idx vulns with
  | Some cards => (Ret (html +:+ join cards), w)
  | None => (Raise AttributeError, w)
  end.
Proof.
  revert idx html. induction vulns as [|v rest IH]; intros idx html; simpl.
  - now rewrite str_app_nil_r.
  - unfold bind, call_str_method.
    destruct (severity v) as [|n|s]; simpl; try reflexivity.
    rewrite IH. destruct (html_findings (S idx) rest) as [cards|]; [|reflexivity].
    simpl. now rewrite str_app_assoc.
Qed.

Lemma pdf_vulns_run (vulns : list Vuln) (idx : nat) (story : list flowable) :
  pdf_vulns idx vulns story = story ++ concat (indexed pdf_entry idx vulns).
Proof.
  revert idx story. induction vulns as [|v rest IH]; intros idx story; simpl.
  - now rewrite app_nil_r.
  - rewrite IH. now rewrite <- app_assoc.
Qed.

Lemma docx_vulns_run (vulns : list Vuln) (idx : nat) (doc : list docx_block) :
  docx_vulns idx vulns doc = doc ++ concat (indexed docx_entry idx vulns).
Proof.
  revert idx doc. induction vulns as [|v rest IH]; intros idx doc; simpl.
  - now rewrite app_nil_r.
  - rewrite IH. now rewrite <- app_assoc.
Qed.

Lemma excel_vulns_run (vulns : list Vuln) (idx : nat) (rows : list (list value)) :
  excel_vulns idx vulns rows = rows ++ indexed excel_row idx vulns.
Proof.
  revert idx rows. induction vulns as [|v rest IH]; intros idx rows; simpl.
  - now rewrite app_nil_r.
  - rewrite IH. now rewrite <- app_assoc.
Qed.

(** ** What a renderer does, case by case *)

(** Closes a goal that equates two worlds up to the bracketing of the
    trace. *)
Ltac same_world :=
  unfold upd; simpl; rewrite <- ?app_assoc; simpl;
  rewrite ?Nat.add_0_r; reflexivity.

Lemma generate_json_report_run self id out w :
  generate_json_report self id out w = expected JSON self id out w 0.
Proof.
  unfold generate_json_report, expected, bind, print, log, ret, write_file.
  rewrite get_scan_data_run, found_scan_data. simpl.
  destruct (scan_data_of (db w) id) as [d|]; simpl; [|same_world].
  destruct (decide (out ∈ unwritable w)); same_world.
Qed.

Lemma generate_csv_report_run self id out w :
  generate_csv_report self id out w = expected CSV self id out w 0.
Proof.
  unfold generate_csv_report, expected, bind, print, log, ret, write_file.
  rewrite get_scan_data_run, found_scan_data. simpl.
  destruct (scan_data_of (db w) id) as [d|]; simpl; [|same_world].
  destruct (decide (out ∈ unwritable w)); same_world.
Qed.

Lemma generate_docx_report_run self id out w :
  generate_docx_report self id out w = expected DOCX self id out w 0.
Proof.
  unfold generate_docx_report, expected, bind, print, log, ret, write_file,
    get_world.
  simpl. destruct (DOCX_AVAILABLE (caps w)); simpl; [|same_world].
  rewrite get_scan_data_run, found_scan_data. simpl.
  destruct (scan_data_of (db w) id) as [d|]; simpl; [|same_world].
  rewrite docx_vulns_run. fold (docx_front d). fold (docx_document d).
  destruct (decide (out ∈ unwritable w)); same_world.
Qed.

Lemma generate_excel_report_run self id out w :
  generate_excel_report self id out w = expected Excel self id out w 0.
Proof.
  unfold generate_excel_report, expected, bind, print, log, ret, write_file,
    get_world.
  simpl. destruct (EXCEL_AVAILABLE (caps w)); simpl; [|same_world].
  rewrite get_scan_data_run, found_scan_data. simpl.
  destruct (scan_data_of (db w) id) as [d|]; simpl; [|same_world].
  rewrite excel_vulns_run. simpl. fold (excel_document d).
  destruct (decide (out ∈ unwritable w)); same_world.
Qed.

Lemma generate_pdf_report_run self id out w :
  generate_pdf_report self id out w = expected PDF self id out w (ticks w).
Proof.
  unfold generate_pdf_report, expected, bind, print, log, ret, write_file,
    get_world, call_str_method, raise.
  simpl. destruct (PDF_AVAILABLE (caps w)); simpl; [|same_world].
  rewrite get_scan_data_run, found_scan_data. simpl.
  destruct (scan_data_of (db w) id) as [d|]; simpl; [|same_world].
  unfold pdf_document.
  destruct (scan_type d) as [|n|ty]; simpl; try same_world.
  destruct (status d) as [|n|st]; simpl; try same_world.
  rewrite pdf_vulns_run. simpl. fold (pdf_front d (str_title ty) (str_title st)).
  destruct (decide (out ∈ unwritable w)); same_world.
Qed.

Lemma generate_html_report_run self id out w :
  exists tk, generate_html_report self id out w = expected HTML self id out w tk.
Proof.
  unfold generate_html_report, expected, bind, print, log, ret, write_file,
    call_str_method, raise, now.
  rewrite get_scan_data_run, found_scan_data. simpl.
  destruct (scan_data_of (db w) id) as [d|]; simpl; [|exists 0%nat; same_world].
  unfold html_document.
  destruct (scan_type d) as [|n|ty]; simpl; try (exists (ticks w); same_world).
  destruct (status d) as [|n|st]; simpl; try (exists (ticks w); same_world).
  rewrite html_vulns_run.
  destruct (html_findings 1 (vulnerabilities d)) as [cards|]; simpl;
    [|exists (S (ticks w)); same_world].
  exists 0%nat. rewrite str_app_assoc.
  destruct (decide (out ∈ unwritable w)); unfold upd; simpl;
    rewrite <- ?app_assoc; simpl; rewrite ?Nat.add_succ_r, ?Nat.add_0_r; reflexivity.
Qed.

(** Every renderer follows [expected]. *)
Lemma render_run f self id out w :
  exists tk, render f self id out w = expected f self id out w tk.
Proof.
  destruct f; simpl.
  - apply generate_html_report_run.
  - exists 0%nat. apply generate_json_report_run.
  - exists 0%nat. apply generate_csv_report_run.
  - exists (ticks w). apply generate_pdf_report_run.
  - exists 0%nat. apply generate_docx_report_run.
  - exists 0%nat. apply generate_excel_report_run.
Qed.

(** ** The reader: result and connection *)

Lemma select_scan_none (s : Store) (id : Z) :
  select_scan s id = None <->
  forall scan, In scan (scans_table s) -> scans_id scan <> id.
Proof.
  unfold select_scan. induction (scans_table s) as [|r l IH]; simpl.
  - split; [intros _ scan [] | reflexivity].
  - destruct (Z.eqb_spec (scans_id r) id) as [E|E].
    + split; [discriminate|]. intros H. exfalso. apply (H r); auto.
    + rewrite IH. split.
      * intros H scan [<-|Hin]; auto.
      * intros H scan Hin. apply H. now right.
Qed.

Lemma select_scan_some (s : Store) (id : Z) (scan : ScanRow) :
  select_scan s id = Some scan -> In scan (scans_table s) /\ scans_id scan = id.
Proof.
  unfold select_scan. intros H. apply find_some in H as [Hin Hid].
  split; [exact Hin | now apply Z.eqb_eq].
Qed.

Lemma select_vulns_spec (s : Store) (id : Z) (row : VulnRow) :
  In row (select_vulns s id) <->
  In row (vulnerabilities_table s) /\ vulns_scan_id row = id.
Proof. unfold select_vulns. rewrite filter_In, Z.eqb_eq. reflexivity. Qed.


(** A scan without findings is found, with an empty list of findings. *)
Example get_scan_data_no_findings :
  fst (get_scan_data generator 40 sample_world) =
    Ret (Some (aggregate scan_40 [])) /\
  not_data (Some (aggregate scan_40 [])) = false /\
  fst (get_scan_data generator 7 sample_world) = Ret None.
Proof. repeat split. Qed.


(** ** Unknown scans *)




(** ** Absent encoders *)

Lemma unavailable_is_not_not_found (f : format) (c : Caps) (id : Z) :
  available c f = false -> unavailable_message f <> not_found_message id.
Proof.
  unfold not_found_message.
  destruct f; simpl; try discriminate; intros _ H;
    repeat rewrite str_app_cons in H; discriminate H.
Qed.

(** C3, as the code has it.  A renderer whose encoder is absent returns
    [False], which is also what it returns for an unknown scan; it writes
    no file, opens no store connection, and prints one line, its "generation
    not available" message, which differs from the "Scan N not found" line
    of an unknown scan. *)
Theorem absent_encoder_returns_false (f : format) (self : VIPReportGenerator)
    (id : Z) (output_file : string) (w : World) :
  available (caps w) f = false ->
  fst (render f self id output_file w) = Ret false /\
  files (snd (render f self id output_file w)) = files w /\
  trace (snd (render f self id output_file w)) =
    trace w ++ [EvCall (method_name f) id output_file;
                EvPrint (unavailable_message f)] /\
  forall id', unavailable_message f <> not_found_message id'.
Proof.
  intros H. destruct (render_run f self id output_file w) as [tk ->].
  unfold expected. rewrite H. simpl. repeat split.
  intros id'. now apply unavailable_is_not_not_found with (c := caps w).
Qed.

Lemma absent_encoder_returns_false_witness :
  fst (render PDF generator 42 "report.pdf" (world_with no_pdf sample_store ∅))
    = Ret false /\
  printed (trace (snd (render PDF generator 42 "report.pdf"
                         (world_with no_pdf sample_store ∅))))
    = [pdf_unavailable_message].
Proof.
  destruct (absent_encoder_returns_false PDF generator 42 "report.pdf"
              (world_with no_pdf sample_store ∅)) as (Hr & _ & Ht & _).
  - reflexivity.
  - split; [exact Hr | rewrite Ht; reflexivity].
Defined.

(** The value returned when the encoder is absent is the value returned
    for an unknown scan: a caller cannot tell the two apart by it. *)
Lemma declined_value_same_as_unknown_scan :
  fst (render PDF generator 42 "report.pdf" (world_with no_pdf sample_store ∅))
    = fst (render PDF generator 7 "report.pdf" sample_world) /\
  fst (render DOCX generator 42 "report.docx" (world_with no_docx sample_store ∅))
    = fst (render DOCX generator 7 "report.docx" sample_world) /\
  fst (render Excel generator 42 "report.xlsx" (world_with no_excel sample_store ∅))
    = fst (render Excel generator 7 "report.xlsx" sample_world) /\
  fst (render PDF generator 7 "report.pdf" sample_world) = Ret false.
Proof. repeat split. Qed.

(** ** Successful rendering *)

Lemma scan_data_of_some (s : Store) (id : Z) :
  (exists scan, In scan (scans_table s) /\ scans_id scan = id) ->
  exists scan, In scan (scans_table s) /\ scans_id scan = id /\
               scan_data_of s id = Some (aggregate scan (select_vulns s id)).
Proof.
  intros [scan0 [Hin Hid]]. unfold scan_data_of.
  destruct (select_scan s id) as [scan|] eqn:E.
  - apply select_scan_some in E as [Hin' Hid']. exists scan. auto.
  - exfalso. rewrite select_scan_none in E. now apply (E scan0).
Qed.

(** A renderer whose encoder is loaded, on a known scan whose document can
    be built and a path that can be opened, writes the document, prints its
    message and returns [True]. *)
Lemma render_writes_document f self id out w d doc :
  available (caps w) f = true ->
  scan_data_of (db w) id = Some d ->
  document f id d (clock w (ticks w)) (clock w (S (ticks w))) = Some doc ->
  out ∉ unwritable w ->
  render f self id out w =
  (Ret true,
   upd w (<[out := doc]> (files w)) (ticks w + clock_reads f) (S (next_conn w))
       (trace w ++ EvCall (method_name f) id out
                :: reader_events self (next_conn w) id true
                ++ [EvPrint (generated_message f out)])).
Proof.
  intros Ha Hd Hdoc Hw. destruct (render_run f self id out w) as [tk ->].
  unfold expected. rewrite Ha, Hd, Hdoc. simpl.
  destruct (decide (out ∈ unwritable w)); [contradiction | reflexivity].
Qed.

Lemma html_findings_some (vulns : list Vuln) (idx : nat) :
  forallb (fun v => is_str (severity v)) vulns = true ->
  exists cards, html_findings idx vulns = Some cards /\ length cards = length vulns.
Proof.
  revert idx. induction vulns as [|v rest IH]; intros idx H; simpl in *.
  - now exists [].
  - apply andb_true_iff in H as [Hv Hrest].
    destruct (IH (S idx) Hrest) as [cards [-> Hlen]].
    destruct (severity v); try discriminate. simpl.
    eexists. split; [reflexivity | simpl; now rewrite Hlen].
Qed.

Lemma document_well_typed f id d t1 t2 :
  well_typed f d = true -> exists doc, document f id d t1 t2 = Some doc.
Proof.
  destruct f; simpl; intros H; eauto.
  - apply andb_true_iff in H as [H Hs]. apply andb_true_iff in H as [Hty Hst].
    destruct (html_findings_some _ 1%nat Hs) as [cards [Hc _]].
    unfold html_document. rewrite Hc.
    destruct (scan_type d); try discriminate. destruct (status d); try discriminate.
    simpl. eauto.
  - apply andb_true_iff in H as [Hty Hst]. unfold pdf_document.
    destruct (scan_type d); try discriminate. destruct (status d); try discriminate.
    simpl. eauto.
Qed.

Lemma value_of_json_of_value (v : value) : value_of_json (json_of_value v) = Some v.
Proof. now destruct v. Qed.

Lemma read_seven_fields (row : VulnRow) :
  read_fields seven_keys (json_of_vuln (vuln_of_row row)) = Some (seven_fields row).
Proof.
  unfold seven_keys, seven_fields. simpl.
  now rewrite !value_of_json_of_value.
Qed.

(** ** Findings in the JSON and CSV outputs *)

(** C2, as the code has it.  For a known scan, a finding row of that scan
    and a path that can be opened: the JSON renderer returns [True] and the
    written object lists the finding with its seven fields, each stored
    value read back unchanged; the CSV renderer returns [True] and the
    written rows, all of six cells, contain the row of the finding's name,
    severity, confidence, URL, description and solution (a text verbatim,
    [None] as the empty cell).  The reference is not written to the CSV
    file. *)
Theorem json_seven_fields_csv_six (self : VIPReportGenerator) (id : Z)
    (output_file : string) (w : World) (row : VulnRow) :
  (exists scan, In scan (scans_table (db w)) /\ scans_id scan = id) ->
  In row (vulnerabilities_table (db w)) ->
  vulns_scan_id row = id ->
  output_file ∉ unwritable w ->
  (exists doc o,
     fst (generate_json_report self id output_file w) = Ret true /\
     file_at (snd (generate_json_report self id output_file w)) output_file
       = Some (JsonFile doc) /\
     In o (json_findings doc) /\
     read_fields seven_keys o = Some (seven_fields row)) /\
  (exists rows,
     fst (generate_csv_report self id output_file w) = Ret true /\
     file_at (snd (generate_csv_report self id output_file w)) output_file
       = Some (CsvFile rows) /\
     In (map csv_cell (six_fields row)) rows /\
     Forall (fun r => length r = 6%nat) rows) /\
  (forall s, csv_cell (VStr s) = s) /\ csv_cell VNone = EmptyString.
Proof.
  intros Hscan Hin Hid Hw.
  destruct (scan_data_of_some _ _ Hscan) as (scan & _ & _ & Hd).
  assert (Hrow : In row (select_vulns (db w) id)) by now apply select_vulns_spec.
  split; [|split; [|split; [reflexivity | reflexivity]]].
  - exists (json_of_data (aggregate scan (select_vulns (db w) id))),
           (json_of_vuln (vuln_of_row row)).
    change (generate_json_report self) with (render JSON self).
    rewrite (render_writes_document JSON self id output_file w _ _ eq_refl Hd eq_refl Hw).
    unfold file_at. simpl. rewrite lookup_insert_eq.
    repeat split.
    + unfold json_findings. simpl. rewrite map_map.
      apply (in_map (fun r => json_of_vuln (vuln_of_row r))), Hrow.
    + apply read_seven_fields.
  - exists (csv_document (aggregate scan (select_vulns (db w) id))).
    change (generate_csv_report self) with (render CSV self).
    rewrite (render_writes_document CSV self id output_file w _ _ eq_refl Hd eq_refl Hw).
    unfold file_at. simpl. rewrite lookup_insert_eq.
    repeat split.
    + unfold csv_document. simpl. right. rewrite map_map.
      apply (in_map (fun r => csv_row (vuln_of_row r))) in Hrow. exact Hrow.
    + unfold csv_document. constructor; [reflexivity|].
      apply List.Forall_forall. intros r Hr. apply in_map_iff in Hr as [v [<- _]].
      reflexivity.
Qed.

Lemma json_seven_fields_csv_six_witness :
  exists rows,
    file_at (snd (generate_csv_report generator 42 "report.csv" sample_world))
            "report.csv" = Some (CsvFile rows) /\
    In (map csv_cell (six_fields finding_2)) rows.
Proof.
  destruct (json_seven_fields_csv_six generator 42 "report.csv" sample_world finding_2)
    as (_ & (rows & _ & Hfile & Hin & _) & _).
  - exists scan_42. simpl. auto.
  - simpl. auto.
  - reflexivity.
  - apply not_elem_of_empty.
  - exists rows. split; [exact Hfile | exact Hin].
Defined.

(** Two stores that differ in the reference of one finding only give the
    same CSV file: the reference cannot be read back from it. *)
Lemma csv_output_drops_reference :
  vulns_reference finding_1 <> vulns_reference finding_1_other_reference /\
  six_fields finding_1 = six_fields finding_1_other_reference /\
  file_at (snd (generate_csv_report generator 42 "report.csv" sample_world))
          "report.csv"
  = file_at (snd (generate_csv_report generator 42 "report.csv"
                    (world_with all_caps store_other_reference ∅)))
            "report.csv" /\
  file_at (snd (generate_csv_report generator 42 "report.csv" sample_world))
          "report.csv"
  = Some (CsvFile [ csv_header;
                    map csv_cell (six_fields finding_1);
                    map csv_cell (six_fields finding_2);
                    map csv_cell (six_fields finding_3) ]).
Proof.
  split; [discriminate|]. split; [reflexivity|].
  split; vm_compute; reflexivity.
Qed.

(** ** Empty and absent optional fields *)






Lemma indexed_map {A B C : Type} (g : nat -> B -> C) (h : A -> B) (idx : nat)
    (l : list A) :
  indexed g idx (map h l) = indexed (fun i x => g i (h x)) idx l.
Proof.
  revert idx. induction l as [|x l IH]; intros idx; simpl;
    [reflexivity | now rewrite IH].
Qed.








(** ** Rendering twice *)








(** ** The orchestrator *)

Lemma formats_enabled (self : VIPReportGenerator) (c : Caps) (base_name : string) :
  formats self c base_name = map (format_entry self base_name) (enabled_formats c).
Proof. destruct c as [[] [] []]; reflexivity. Qed.






Lemma well_typed_false f id d t1 t2 :
  document f id d t1 t2 = None -> well_typed f d = false.
Proof.
  intros H. destruct (well_typed f d) eqn:E; [|reflexivity].
  destruct (document_well_typed f id d t1 t2 E) as [doc Hdoc]. congruence.
Qed.







(** A run in which every renderer returns [False] still invokes all of them. *)
Example all_formats_unknown_scan :
  fst (generate_all_formats generator 7 "report" sample_world)
    = Ret [("HTML", false); ("JSON", false); ("CSV", false);
           ("PDF", false); ("DOCX", false); ("Excel", false)] /\
  calls (trace (snd (generate_all_formats generator 7 "report" sample_world)))
    = map (call_of 7 "report") [HTML; JSON; CSV; PDF; DOCX; Excel].
Proof. split; vm_compute; reflexivity. Qed.

(** With the DOCX encoder absent, that format is skipped and the others
    succeed. *)
Example all_formats_without_docx :
  fst (generate_all_formats generator 42 "report"
         (world_with no_docx sample_store ∅))
    = Ret [("HTML", true); ("JSON", true); ("CSV", true);
           ("PDF", true); ("Excel", true)].
Proof. vm_compute; reflexivity. Qed.

(** ** Findings and counts in the documents *)


(** Entry [n] of an indexed list is built from element [n], with number
    [idx + n]. *)
Lemma nth_error_indexed {A B : Type} (g : nat -> A -> B) (idx n : nat) (l : list A) :
  nth_error (indexed g idx l) n = option_map (g (idx + n)%nat) (nth_error l n).
Proof.
  revert idx n. induction l as [|x l IH]; intros idx [|n]; simpl; try reflexivity.
  - now rewrite Nat.add_0_r.
  - rewrite IH. now rewrite Nat.add_succ_r.
Qed.

Lemma html_findings_indexed (vulns : list Vuln) (idx : nat) (cards : list string) :
  html_findings idx vulns = Some cards ->
  cards = indexed (fun i v => html_entry i v (severity_class v)) idx vulns.
Proof.
  revert idx cards. induction vulns as [|v rest IH]; intros idx cards; simpl.
  - now intros [= <-].
  - unfold severity_class at 1.
    destruct (str_of (severity v)) as [s|]; [|discriminate].
    destruct (html_findings (S idx) rest) as [cs|] eqn:E; [|discriminate].
    intros [= <-]. f_equal. now apply IH.
Qed.








(** The example of the specification: the HTML report of scan 42 renders
    "1" in the high-risk stat block and the three names in stored order. *)
Example html_report_of_scan_42 :
  match position (high_risk_block "1") (html_text (snd first_run) "report.html"),
        position "1. SQL Injection" (html_text (snd first_run) "report.html"),
        position "2. Reflected XSS" (html_text (snd first_run) "report.html"),
        position "3. Missing Security Header" (html_text (snd first_run) "report.html")
  with
  | Some _, Some a, Some b, Some c => (a <? b)%nat && (b <? c)%nat = true
  | _, _, _, _ => False
  end.
Proof. vm_compute. reflexivity. Qed.


(** ** Stored counts that disagree with the findings *)




(** ** The outcomes of a renderer *)

Lemma html_findings_typed (vulns : list Vuln) (idx : nat) (cards : list string) :
  html_findings idx vulns = Some cards ->
  forallb (fun v => is_str (severity v)) vulns = true.
Proof.
  revert idx cards. induction vulns as [|v rest IH]; intros idx cards; simpl;
    [reflexivity|].
  destruct (severity v) as [| |s]; simpl; try discriminate.
  destruct (html_findings (S idx) rest) as [cs|] eqn:E; [|discriminate].
  intros _. now apply (IH (S idx) cs).
Qed.

Lemma document_some_well_typed f id d t1 t2 doc :
  document f id d t1 t2 = Some doc -> well_typed f d = true.
Proof.
  destruct f; simpl; try reflexivity.
  - unfold html_document.
    destruct (scan_type d); simpl; try discriminate.
    destruct (status d); simpl; try discriminate.
    destruct (html_findings 1 (vulnerabilities d)) as [cards|] eqn:E;
      [|discriminate].
    intros _. now apply (html_findings_typed _ 1%nat cards).
  - unfold pdf_document.
    destruct (scan_type d); simpl; try discriminate.
    destruct (status d); simpl; try discriminate. reflexivity.
Qed.

(** The four ways a call of a renderer ends. *)
Lemma render_cases f self id out w :
  (fst (render f self id out w) = Ret false /\
   files (snd (render f self id out w)) = files w /\
   (available (caps w) f = false \/ scan_data_of (db w) id = None)) \/
  (exists d,
     fst (render f self id out w) = Raise AttributeError /\
     files (snd (render f self id out w)) = files w /\
     available (caps w) f = true /\ scan_data_of (db w) id = Some d /\
     well_typed f d = false) \/
  (exists d,
     fst (render f self id out w) = Raise OSError /\
     files (snd (render f self id out w)) = files w /\
     available (caps w) f = true /\ scan_data_of (db w) id = Some d /\
     well_typed f d = true /\ out ∈ unwritable w) \/
  (exists d doc,
     fst (render f self id out w) = Ret true /\
     files (snd (render f self id out w)) = <[out := doc]> (files w) /\
     available (caps w) f = true /\ scan_data_of (db w) id = Some d /\
     well_typed f d = true /\ (out ∉ unwritable w) /\
     document f id d (clock w (ticks w)) (clock w (S (ticks w))) = Some doc).
Proof.
  destruct (render_run f self id out w) as [tk ->]. unfold expected.
  destruct (available (caps w) f) eqn:Ha; simpl; [|left; auto].
  destruct (scan_data_of (db w) id) as [d|] eqn:Hd; [|left; auto].
  destruct (document f id d _ _) as [doc|] eqn:Hdoc.
  - pose proof (document_some_well_typed _ _ _ _ _ _ Hdoc) as Hwt.
    destruct (decide (out ∈ unwritable w)) as [Hin|Hout].
    + right. right. left. exists d. simpl. auto 10.
    + right. right. right. exists d, doc. simpl. auto 10.
  - right. left. exists d. simpl. repeat split; auto.
    eapply well_typed_false, Hdoc.
Qed.

(** X1.  A renderer writes its output file only: whatever the call does,
    the file at any other path is what it was before. *)
Theorem render_keeps_other_files (f : format) (self : VIPReportGenerator) (id : Z)
    (output_file path : string) (w : World) :
  path <> output_file ->
  file_at (snd (render f self id output_file w)) path = file_at w path.
Proof.
  intros Hne. unfold file_at.
  destruct (render_cases f self id output_file w)
    as [(_ & -> & _) | [(d & _ & -> & _) | [(d & _ & -> & _) | (d & doc & _ & -> & _)]]];
    try reflexivity.
  now apply lookup_insert_ne.
Qed.

Lemma render_keeps_other_files_witness :
  file_at (snd (render JSON generator 42 "report.json" (snd first_run))) "report.html"
  = file_at (snd first_run) "report.html".
Proof.
  apply (render_keeps_other_files JSON generator 42 "report.json" "report.html").
  discriminate.
Defined.

(** X2.  No partial output: unless the call returns [True], a renderer
    leaves every file as it was, also when it raises. *)
Theorem render_changes_files_only_on_success (f : format)
    (self : VIPReportGenerator) (id : Z) (output_file : string) (w : World) :
  fst (render f self id output_file w) <> Ret true ->
  files (snd (render f self id output_file w)) = files w.
Proof.
  intros Hne.
  destruct (render_cases f self id output_file w)
    as [(_ & H & _) | [(d & _ & H & _) | [(d & _ & H & _) | (d & doc & H & _)]]];
    auto.
  contradiction.
Qed.

Lemma render_changes_files_only_on_success_witness :
  fst (render HTML generator 42 "report.html" locked_html_world) = Raise OSError /\
  files (snd (render HTML generator 42 "report.html" locked_html_world))
    = files locked_html_world.
Proof.
  split; [reflexivity|].
  apply (render_changes_files_only_on_success HTML generator 42 "report.html"
           locked_html_world).
  discriminate.
Defined.


(** ** Connections *)



Lemma remove_first_head (c : nat) (l : list nat) : remove_first c (c :: l) = l.
Proof. simpl. now rewrite Nat.eqb_refl. Qed.








(** ** Invariants of the orchestrator *)

(** A property of the world that printing and every renderer of a list of
    formats preserve is preserved by the first loop over that list. *)
Lemma run_formats_invariant (I : World -> Prop) self id base_name :
  (forall line w, I w -> I (snd (print line w))) ->
  forall fs : list format,
    (forall f w, In f fs -> I w ->
                 I (snd (render f self id (base_name +:+ extension f) w))) ->
    forall results w,
      I w -> I (snd (run_formats id (map (format_entry self base_name) fs) results w)).
Proof.
  intros Hlog. induction fs as [|f rest IH]; intros Hr results w Hw; simpl.
  - exact Hw.
  - unfold bind at 1. unfold print.
    pose proof (Hlog (newline +:+ "[*] Generating " +:+ format_name f
                               +:+ " report...") w Hw) as H1. unfold print in H1.
    destruct (log _ w) as [[[]|e] w1]; simpl in H1 |- *; [|exact H1].
    unfold bind at 1.
    pose proof (Hr f w1 (or_introl eq_refl) H1) as H2.
    destruct (render f self id _ w1) as [[b|e] w2]; simpl in H2 |- *; [|exact H2].
    apply IH; [|exact H2]. intros g w' Hg. apply Hr. now right.
Qed.

Lemma print_summary_invariant (I : World -> Prop) :
  (forall line w, I w -> I (snd (print line w))) ->
  forall results w, I w -> I (snd (print_summary results w)).
Proof.
  intros Hlog. induction results as [|[n b] rest IH]; intros w Hw; simpl.
  - exact Hw.
  - unfold bind, print.
    pose proof (Hlog (ljust 12 n +:+ " : " +:+
                  (if b then status_success else status_failed)) w Hw) as H1. unfold print in H1.
    destruct (log _ w) as [[[]|e] w1]; simpl in H1 |- *; [|exact H1].
    now apply IH.
Qed.

(** The same for the whole of [generate_all_formats]. *)
Lemma generate_all_formats_invariant (I : World -> Prop) self id base_name w :
  (forall line w, I w -> I (snd (print line w))) ->
  (forall f w', In f (enabled_formats (caps w)) -> I w' ->
                I (snd (render f self id (base_name +:+ extension f) w'))) ->
  I w -> I (snd (generate_all_formats self id base_name w)).
Proof.
  intros Hlog Hr Hw. unfold generate_all_formats.
  unfold bind at 1. unfold print at 1.
  pose proof (Hlog (newline +:+ str_repeat "=" 60) w Hw) as H1. unfold print in H1.
  destruct (log _ w) as [[[]|e] w1] eqn:E1; simpl in H1; [|exact H1].
  assert (C1 : caps w1 = caps w) by (unfold log in E1; now inversion E1).
  unfold bind at 1. unfold print at 1.
  pose proof (Hlog "GENERATING REPORTS IN ALL FORMATS" w1 H1) as H2. unfold print in H2.
  destruct (log _ w1) as [[[]|e] w2] eqn:E2; simpl in H2; [|exact H2].
  assert (C2 : caps w2 = caps w) by (unfold log in E2; inversion E2; now subst).
  unfold bind at 1. unfold print at 1.
  pose proof (Hlog (str_repeat "=" 60) w2 H2) as H3. unfold print in H3.
  destruct (log _ w2) as [[[]|e] w3] eqn:E3; simpl in H3; [|exact H3].
  assert (C3 : caps w3 = caps w) by (unfold log in E3; inversion E3; now subst).
  unfold bind at 1. unfold get_world. cbv beta iota.
  rewrite formats_enabled, C3. unfold bind at 1.
  pose proof (run_formats_invariant I self id base_name Hlog
                (enabled_formats (caps w)) Hr [] w3 H3) as H4.
  destruct (run_formats id _ [] w3) as [[res|e] w4]; simpl in H4; [|exact H4].
  unfold bind at 1. unfold print at 1.
  pose proof (Hlog (newline +:+ str_repeat "=" 60) w4 H4) as H5. unfold print in H5.
  destruct (log _ w4) as [[[]|e] w5]; simpl in H5; [|exact H5].
  unfold bind at 1. unfold print at 1.
  pose proof (Hlog "REPORT GENERATION SUMMARY" w5 H5) as H6. unfold print in H6.
  destruct (log _ w5) as [[[]|e] w6]; simpl in H6; [|exact H6].
  unfold bind at 1. unfold print at 1.
  pose proof (Hlog (str_repeat "=" 60) w6 H6) as H7. unfold print in H7.
  destruct (log _ w6) as [[[]|e] w7]; simpl in H7; [|exact H7].
  unfold bind at 1.
  pose proof (print_summary_invariant I Hlog res w7 H7) as H8.
  destruct (print_summary res w7) as [[[]|e] w8]; simpl in H8; [|exact H8].
  unfold bind at 1. unfold print at 1.
  pose proof (Hlog (str_repeat "=" 60 +:+ newline) w8 H8) as H9. unfold print in H9.
  destruct (log _ w8) as [[[]|e] w9]; simpl in H9; [|exact H9].
  exact H9.
Qed.

Lemma print_world (line : string) (w : World) :
  snd (print line w) = upd w (files w) (ticks w) (next_conn w)
                           (trace w ++ [EvPrint line]).
Proof. reflexivity. Qed.


(** X6.  [generate_all_formats] writes nowhere but at the base name
    followed by the extension of a format whose encoder is loaded: the file
    at any other path is what it was, in every outcome. *)
Theorem all_formats_keep_other_files (self : VIPReportGenerator) (id : Z)
    (base_name path : string) (w : World) :
  (forall f, In f (enabled_formats (caps w)) -> path <> base_name +:+ extension f) ->
  file_at (snd (generate_all_formats self id base_name w)) path = file_at w path.
Proof.
  intros Hpath. unfold file_at.
  apply (generate_all_formats_invariant
           (fun w' => files w' !! path = files w !! path)); [| |reflexivity].
  - intros line w' H. now rewrite print_world.
  - intros f w' Hf H. specialize (Hpath f Hf).
    destruct (render_cases f self id (base_name +:+ extension f) w')
      as [(_ & -> & _) | [(d & _ & -> & _) | [(d & _ & -> & _)
         | (d & doc & _ & -> & _)]]]; try exact H.
    rewrite lookup_insert_ne; [exact H | congruence].
Qed.

Lemma all_formats_keep_other_files_witness :
  file_at (snd (generate_all_formats generator 42 "security_report" (snd first_run)))
          "report.html"
  = file_at (snd first_run) "report.html".
Proof.
  apply (all_formats_keep_other_files generator 42 "security_report" "report.html").
  intros f _. destruct f; discriminate.
Defined.











(** ** Reading the JSON report back *)

Lemma vuln_of_json_of_vuln (v : Vuln) : vuln_of_json (json_of_vuln v) = Some v.
Proof.
  unfold vuln_of_json, json_of_vuln, seven_keys. simpl.
  rewrite !value_of_json_of_value. now destruct v.
Qed.

Lemma vulns_of_json_of_vulns (vs : list Vuln) :
  vulns_of_json (map json_of_vuln vs) = Some vs.
Proof.
  induction vs as [|v vs IH]; simpl; [reflexivity|].
  now rewrite vuln_of_json_of_vuln, IH.
Qed.

Lemma data_of_json_of_data (d : ScanData) : data_of_json (json_of_data d) = Some d.
Proof.
  unfold data_of_json, json_of_data, scan_keys. simpl.
  rewrite !value_of_json_of_value, vulns_of_json_of_vulns. now destruct d.
Qed.

(** X9.  The JSON report loses nothing: for a known scan and a path that
    can be opened, [generate_json_report] returns [True] and the object it
    writes reads back as the very aggregate that [get_scan_data] returns,
    every field of the scan and of each finding included. *)
Theorem json_report_reads_back (self : VIPReportGenerator) (id : Z)
    (output_file : string) (w : World) (scan : ScanRow) :
  select_scan (db w) id = Some scan ->
  output_file ∉ unwritable w ->
  exists doc,
    fst (generate_json_report self id output_file w) = Ret true /\
    file_at (snd (generate_json_report self id output_file w)) output_file
      = Some (JsonFile doc) /\
    Ret (data_of_json doc) = fst (get_scan_data self id w).
Proof.
  intros Hscan Hw.
  set (d := aggregate scan (select_vulns (db w) id)).
  assert (Hd : scan_data_of (db w) id = Some d)
    by (unfold scan_data_of; now rewrite Hscan).
  exists (json_of_data d).
  change (generate_json_report self) with (render JSON self).
  rewrite (render_writes_document JSON self id output_file w d _ eq_refl Hd eq_refl Hw).
  unfold file_at. simpl. rewrite lookup_insert_eq, get_scan_data_run. simpl.
  now rewrite data_of_json_of_data, Hd.
Qed.

Lemma json_report_reads_back_witness :
  exists doc,
    file_at (snd (generate_json_report generator 42 "report.json" sample_world))
            "report.json" = Some (JsonFile doc) /\
    data_of_json doc = Some (aggregate scan_42 [finding_1; finding_2; finding_3]).
Proof.
  destruct (json_report_reads_back generator 42 "report.json" sample_world scan_42)
    as (doc & _ & Hfile & Hback).
  - reflexivity.
  - apply not_elem_of_empty.
  - exists doc. split; [exact Hfile|]. now injection Hback.
Defined.

(** ** Fields a format does not show *)

Lemma select_vulns_map_rows (g : VulnRow -> VulnRow) (s : Store) (id : Z) :
  (forall r, vulns_scan_id (g r) = vulns_scan_id r) ->
  select_vulns (map_rows g s) id = map g (select_vulns s id).
Proof.
  intros Hg. unfold select_vulns. simpl.
  induction (vulnerabilities_table s) as [|r l IH]; simpl; [reflexivity|].
  rewrite Hg. destruct (vulns_scan_id r =? id)%Z; simpl; now rewrite IH.
Qed.

Lemma scan_data_of_map_rows (g : VulnRow -> VulnRow) (h : Vuln -> Vuln)
    (s : Store) (id : Z) :
  (forall r, vulns_scan_id (g r) = vulns_scan_id r) ->
  (forall r, vuln_of_row (g r) = h (vuln_of_row r)) ->
  scan_data_of (map_rows g s) id = option_map (map_vulns h) (scan_data_of s id).
Proof.
  intros Hid Hh. unfold scan_data_of. rewrite select_vulns_map_rows by exact Hid.
  change (select_scan (map_rows g s) id) with (select_scan s id).
  destruct (select_scan s id) as [scan|]; [|reflexivity].
  simpl. unfold aggregate, map_vulns. simpl. rewrite !map_map.
  f_equal. f_equal. apply map_ext. exact Hh.
Qed.

(** A change of the finding rows that the document of a format does not
    depend on changes nothing in what its renderer returns, writes and
    logs. *)
Lemma render_blind_to (g : VulnRow -> VulnRow) (h : Vuln -> Vuln) f self id out w s :
  (forall r, vulns_scan_id (g r) = vulns_scan_id r) ->
  (forall r, vuln_of_row (g r) = h (vuln_of_row r)) ->
  (forall d t1 t2, document f id (map_vulns h d) t1 t2 = document f id d t1 t2) ->
  fst (render f self id out (with_db w (map_rows g s)))
    = fst (render f self id out (with_db w s)) /\
  files (snd (render f self id out (with_db w (map_rows g s))))
    = files (snd (render f self id out (with_db w s))) /\
  trace (snd (render f self id out (with_db w (map_rows g s))))
    = trace (snd (render f self id out (with_db w s))).
Proof.
  intros Hid Hh Hdoc.
  destruct (render_run f self id out (with_db w s)) as [tk ->].
  destruct (render_run f self id out (with_db w (map_rows g s))) as [tk' ->].
  unfold expected. simpl.
  rewrite (scan_data_of_map_rows g h s id Hid Hh).
  destruct (negb (available (caps w) f)); [repeat split|].
  destruct (scan_data_of s id) as [d|]; simpl; [|repeat split].
  rewrite Hdoc.
  destruct (document f id d _ _); [|repeat split].
  destruct (decide (out ∈ unwritable w)); repeat split.
Qed.

Lemma hide_store_map_rows (f : format) (s : Store) :
  hide_store f s = map_rows (hide f) s.
Proof. reflexivity. Qed.

Lemma document_hide f id d t1 t2 :
  document f id (map_vulns (hide_vuln f) d) t1 t2 = document f id d t1 t2.
Proof.
  destruct f; simpl.
  - unfold html_document. simpl. now rewrite map_id.
  - unfold json_of_data. simpl. now rewrite map_id.
  - unfold csv_document. simpl. now rewrite map_map.
  - unfold pdf_document. simpl. rewrite indexed_map. reflexivity.
  - unfold docx_document. simpl. rewrite indexed_map. reflexivity.
  - unfold excel_document. simpl. rewrite indexed_map. reflexivity.
Qed.

(** X10.  What a format does not show cannot be read from its output: two
    stores that agree but for the confidence and the reference of findings
    give the same PDF and the same DOCX report, and two stores that agree
    but for the reference of findings give the same CSV and the same Excel
    report (same result, same files, same trace). *)
Theorem output_blind_to_hidden_fields (f : format) (self : VIPReportGenerator)
    (id : Z) (output_file : string) (w : World) (s1 s2 : Store) :
  hide_store f s1 = hide_store f s2 ->
  fst (render f self id output_file (with_db w s1))
    = fst (render f self id output_file (with_db w s2)) /\
  files (snd (render f self id output_file (with_db w s1)))
    = files (snd (render f self id output_file (with_db w s2))) /\
  trace (snd (render f self id output_file (with_db w s1)))
    = trace (snd (render f self id output_file (with_db w s2))).
Proof.
  intros Heq.
  assert (H : forall s,
    fst (render f self id output_file (with_db w (hide_store f s)))
      = fst (render f self id output_file (with_db w s)) /\
    files (snd (render f self id output_file (with_db w (hide_store f s))))
      = files (snd (render f self id output_file (with_db w s))) /\
    trace (snd (render f self id output_file (with_db w (hide_store f s))))
      = trace (snd (render f self id output_file (with_db w s)))).
  { intros s. rewrite hide_store_map_rows.
    apply (render_blind_to (hide f) (hide_vuln f)).
    - intros r. now destruct f.
    - intros r. now destruct f.
    - intros d t1 t2. apply document_hide. }
  destruct (H s1) as (A1 & B1 & C1). destruct (H s2) as (A2 & B2 & C2).
  rewrite <- A1, <- B1, <- C1, <- A2, <- B2, <- C2, Heq. auto.
Qed.

Lemma output_blind_to_hidden_fields_witness :
  files (snd (render Excel generator 42 "report.xlsx"
                (with_db sample_world sample_store)))
  = files (snd (render Excel generator 42 "report.xlsx"
                  (with_db sample_world store_other_reference))).
Proof.
  apply (output_blind_to_hidden_fields Excel generator 42 "report.xlsx"
           sample_world sample_store store_other_reference).
  reflexivity.
Defined.



(** ** Text in the HTML report *)

Lemma occurs_in_here (t rest : string) : occurs_in t (t +:+ rest).
Proof. exists EmptyString, rest. reflexivity. Qed.

Lemma occurs_in_skip (t a b : string) : occurs_in t b -> occurs_in t (a +:+ b).
Proof.
  intros (before & after & ->). exists (a +:+ before), after.
  now rewrite str_app_assoc.
Qed.

Lemma occurs_in_left (t a b : string) : occurs_in t a -> occurs_in t (a +:+ b).
Proof.
  intros (before & after & ->). exists before, (after +:+ b).
  now rewrite !str_app_assoc.
Qed.

Lemma occurs_in_join (t c : string) (cards : list string) :
  In c cards -> occurs_in t c -> occurs_in t (join cards).
Proof.
  induction cards as [|x cards IH]; simpl; [intros []|].
  intros [->|Hin] Ht.
  - now apply occurs_in_left.
  - apply occurs_in_skip. now apply IH.
Qed.

Lemma in_indexed {A B : Type} (g : nat -> A -> B) (idx : nat) (l : list A) (x : A) :
  In x l -> exists i, In (g i x) (indexed g idx l).
Proof.
  revert idx. induction l as [|y l IH]; intros idx; simpl; [intros []|].
  intros [->|Hin].
  - exists idx. now left.
  - destruct (IH (S idx) Hin) as [i Hi]. exists i. now right.
Qed.

Lemma card_texts_occur (idx : nat) (v : Vuln) (cls t : string) :
  In t (card_texts v) -> occurs_in t (html_entry idx v cls).
Proof.
  intros Hin. unfold html_entry. apply occurs_in_left. unfold html_card.
  simpl in Hin.
  destruct Hin as [<-|[<-|[<-|[<-|[<-|[]]]]]];
    repeat first [apply occurs_in_here | apply occurs_in_skip].
Qed.

(** X12.  The HTML renderer escapes nothing: for a known scan that it can
    render to a path that can be opened, the written text contains, byte
    for byte, the name, severity, description, URL and confidence of every
    finding of the scan, whatever characters they hold. *)
Theorem html_embeds_fields_verbatim (self : VIPReportGenerator) (id : Z)
    (output_file : string) (w : World) (scan : ScanRow) (row : VulnRow)
    (t : string) :
  select_scan (db w) id = Some scan ->
  well_typed HTML (aggregate scan (select_vulns (db w) id)) = true ->
  output_file ∉ unwritable w ->
  In row (vulnerabilities_table (db w)) ->
  vulns_scan_id row = id ->
  In t (card_texts (vuln_of_row row)) ->
  fst (generate_html_report self id output_file w) = Ret true /\
  occurs_in t (html_text (snd (generate_html_report self id output_file w))
                         output_file).
Proof.
  intros Hscan Hwt Hw Hrow Hid Ht.
  change (generate_html_report self) with (render HTML self).
  set (d := aggregate scan (select_vulns (db w) id)) in *.
  assert (Hd : scan_data_of (db w) id = Some d)
    by (unfold scan_data_of; now rewrite Hscan).
  destruct (document_well_typed HTML id d (clock w (ticks w)) (clock w (S (ticks w)))
              Hwt) as [doc Hdoc].
  rewrite (render_writes_document HTML self id output_file w d doc eq_refl Hd Hdoc Hw).
  split; [reflexivity|].
  unfold html_text, file_at. simpl files. rewrite lookup_insert_eq.
  simpl in Hdoc. unfold html_document in Hdoc.
  destruct (str_of (scan_type d)) as [ty|]; [|discriminate].
  destruct (str_of (status d)) as [st|]; [|discriminate].
  destruct (html_findings 1 (vulnerabilities d)) as [cards|] eqn:Hc; [|discriminate].
  injection Hdoc as <-. apply html_findings_indexed in Hc as ->.
  apply occurs_in_skip. apply occurs_in_left.
  assert (Hv : In (vuln_of_row row) (vulnerabilities d)).
  { unfold d. simpl. apply in_map. apply select_vulns_spec. auto. }
  destruct (in_indexed (fun i v => html_entry i v (severity_class v)) 1 _ _ Hv)
    as [i Hi].
  eapply occurs_in_join; [exact Hi|]. now apply card_texts_occur.
Qed.

Lemma html_embeds_fields_verbatim_witness :
  occurs_in "<script>alert(1)</script>"
    (html_text (snd (generate_html_report generator 42 "report.html"
                       (world_with all_caps store_with_markup ∅))) "report.html").
Proof.
  apply (html_embeds_fields_verbatim generator 42 "report.html"
           (world_with all_caps store_with_markup ∅) scan_42 finding_with_markup).
  - reflexivity.
  - reflexivity.
  - apply not_elem_of_empty.
  - simpl. auto.
  - reflexivity.
  - simpl. auto.
Defined.

(** ** The main block *)

(** Runs the first statement of a block when it prints a line or a prompt. *)
Ltac run_line :=
  unfold bind at 1; first [unfold print at 1 | unfold prompt at 1];
  unfold log at 1;
  cbv beta iota zeta
      delta [upd caps db files unwritable clock ticks next_conn trace].

(** X13.  A line of ASCII text that is not a string of digits once stripped
    (an empty line, a sign, a letter, a digit group with a space inside)
    ends the run with exit status 1 after the line "[!] Invalid Scan ID":
    the menu is not shown, the choice is not read, no renderer is entered
    and the store and the files are not touched. *)
Theorem main_rejects_scan_id (scan_line choice_line : string) (w : World) :
  ascii_text scan_line = true ->
  py_isdigit (py_strip scan_line) = false ->
  main scan_line choice_line w =
  (Ret 1,
   upd w (files w) (ticks w) (next_conn w)
       (trace w ++ [ EvPrint main_banner;
                     EvPrint (newline +:+ "Enter Scan ID: ");
                     EvPrint "[!] Invalid Scan ID" ])).
Proof.
  intros _ H. unfold main. do 2 run_line.
  rewrite H. cbv beta iota delta [negb]. run_line.
  unfold ret, upd. now rewrite <- !app_assoc.
Qed.

Lemma main_rejects_scan_id_witness :
  fst (main " -42 " "1" sample_world) = Ret 1.
Proof.
  rewrite (main_rejects_scan_id " -42 " "1" sample_world eq_refl eq_refl).
  reflexivity.
Defined.

(** An empty line, blanks, a digit group with a blank inside and a signed
    number are no identifiers; digits between blanks are. *)
Example scan_id_examples :
  py_isdigit (py_strip EmptyString) = false /\
  py_isdigit (py_strip "   ") = false /\
  py_isdigit (py_strip "4 2") = false /\
  py_isdigit (py_strip "+42") = false /\
  py_isdigit (py_strip "  0042 ") = true /\
  py_int (py_strip "  0042 ") = 42.
Proof. repeat split. Qed.








(** ** The batch script *)

Lemma bind_ret_world {A B : Type} (c : M A) (k : A -> M B) (w w' : World) (a : A) :
  c w = (Ret a, w') -> (let* x := c in k x) w = k a w'.
Proof. intros H. unfold bind. now rewrite H. Qed.

Lemma write_file_open (path : string) (content : file_content) (w : World) :
  path ∉ unwritable w ->
  write_file path content w
  = (Ret tt, upd w (<[path := content]> (files w)) (ticks w) (next_conn w) (trace w)).
Proof. intros H. unfold write_file. now destruct (decide _). Qed.

Lemma print_step {B : Type} (line : string) (k : unit -> M B) (w : World) :
  (let* x := print line in k x) w = k tt (snd (print line w)).
Proof. reflexivity. Qed.



Lemma batch_loop_spares (scanner : Scanner) :
  sparing_scanner scanner ->
  forall sites results w,
    files (snd (batch_loop scanner sites results w)) !! "batch_results.json"
    = files w !! "batch_results.json".
Proof.
  intros (Hs & Hp & Hg). induction sites as [|site rest IH]; intros results w.
  - reflexivity.
  - cbn [batch_loop]. rewrite !print_step.
    set (w3 := snd (print _ (snd (print _ (snd (print _ w)))))).
    change (files w) with (files w3).
    unfold bind at 1. specialize (Hs site "quick" w3).
    destruct (start_scan scanner site "quick" w3) as [[scan|e] w4];
      cbn [snd] in Hs; [|exact Hs].
    rewrite <- Hs. destruct (truthy scan); [|apply IH].
    unfold bind at 1. specialize (Hp scan w4).
    destruct (scanner_print_summary scanner scan w4) as [[[]|e] w5];
      cbn [snd] in Hp; [|exact Hp].
    rewrite <- Hp. unfold bind at 1.
    specialize (Hg scan ("report_" +:+ py_str scan +:+ ".html") w5).
    destruct (generate_report scanner scan _ w5) as [[[]|e] w6];
      cbn [snd] in Hg; [|exact Hg].
    rewrite <- Hg. apply IH.
Qed.

Lemma bind_raise_world {A B : Type} (c : M A) (k : A -> M B) (w w' : World) (e : exn) :
  c w = (Raise e, w') -> (let* x := c in k x) w = (Raise e, w').
Proof. intros H. unfold bind. now rewrite H. Qed.

Lemma write_file_locked (path : string) (content : file_content) (w : World) :
  path ∈ unwritable w -> write_file path content w = (Raise OSError, w).
Proof. intros H. unfold write_file. now destruct (decide _). Qed.

(** X17.  The summary is written once, after the loop.  For a scanner whose
    calls leave [batch_results.json] alone: unless the script ends normally
    (a call of the scanner raised, or the summary file could not be opened),
    [batch_results.json] is what it was before the run, without an entry for
    any of the sites scanned so far. *)
Theorem batch_scan_all_or_nothing (scanner : Scanner) (w : World) :
  sparing_scanner scanner ->
  fst (batch_scan scanner w) <> Ret tt ->
  files (snd (batch_scan scanner w)) !! "batch_results.json"
    = files w !! "batch_results.json".
Proof.
  intros Hq. pose proof (batch_loop_spares scanner Hq websites [] w) as Hl.
  unfold batch_scan.
  destruct (batch_loop scanner websites [] w) as [[results|e] w'] eqn:E;
    cbn [snd] in Hl.
  - rewrite (bind_ret_world _ _ _ _ _ E).
    destruct (decide ("batch_results.json" ∈ unwritable w')) as [Hin|Hout].
    + rewrite (bind_raise_world _ _ _ _ _ (write_file_locked _ _ _ Hin)).
      intros _. exact Hl.
    + rewrite (bind_ret_world _ _ _ _ _ (write_file_open _ _ _ Hout)).
      rewrite !print_step. unfold ret. cbv beta iota delta [fst]. congruence.
  - rewrite (bind_raise_world _ _ _ _ _ E). intros _. exact Hl.
Qed.


Lemma failing_scanner_sparing : sparing_scanner failing_scanner.
Proof.
  split; [|split]; intros; intro w0; cbn [start_scan scanner_print_summary generate_report failing_scanner].
  - destruct (String.eqb _ _); reflexivity.
  - reflexivity.
  - reflexivity.
Qed.


Lemma batch_scan_all_or_nothing_witness :
  fst (batch_scan failing_scanner sample_world) = Raise OSError /\
  files (snd (batch_scan failing_scanner sample_world)) !! "batch_results.json"
    = files sample_world !! "batch_results.json".
Proof.
  split; [vm_compute; reflexivity|].
  apply (batch_scan_all_or_nothing failing_scanner sample_world).
  - exact failing_scanner_sparing.
  - vm_compute. discriminate.
Defined.

Example batch_summary_of_sample_scanner :
  files (snd (batch_scan sample_scanner sample_world)) !! "batch_results.json"
  = Some (JsonFile (JList
      [ JObj [("url", JStr "http://testphp.vulnweb.com"); ("scan_id", JInt 1);
              ("status", JStr "completed")];
        JObj [("url", JStr "http://testhtml5.vulnweb.com"); ("scan_id", JNull);
              ("status", JStr "failed")];
        JObj [("url", JStr "http://testasp.vulnweb.com"); ("scan_id", JNull);
              ("status", JStr "failed")] ])).
Proof. vm_compute. reflexivity. Qed.
